(** * The OVAL module of the oscap tool (utils/oscap-oval.c)

    A shallow embedding of the action handlers of the [oval] command
    group: the per-definition callback, the collect, evaluate and analyse
    workflows and the option parser.  The handlers only sequence calls
    into libopenscap, so the embedding is a small monad that threads the
    library's pending-error flag and a trace of every call and every line
    printed; the answers of the library are supplied by an [environment]. *)

From Stdlib Require Import ZArith List String Bool Lia DecimalString.
Import ListNotations.

Local Open Scope Z_scope.

(** ** Declarations the file takes from headers *)

(** Modelled from the spec: the exit status macros of oscap-tool.h, which
    is not part of the sources.  The spec names three categories for the
    workflows: success, hard-error and policy-fail. *)
Inductive oscap_exitcode : Set :=
| OSCAP_OK
| OSCAP_ERROR
| OSCAP_FAIL.

(** The enumerators of [oval_result_t], the text of a result, the marker
    printed for an invalid document and libc's [basename] are declared
    elsewhere; they are parameters of the development. *)
Class oval_headers : Type := {
  OVAL_RESULT_TRUE : Z;
  OVAL_RESULT_FALSE : Z;
  OVAL_RESULT_UNKNOWN : Z;
  OVAL_RESULT_ERROR : Z;
  OVAL_RESULT_NOT_EVALUATED : Z;
  OVAL_RESULT_NOT_APPLICABLE : Z;
  oval_result_get_text : Z -> string;
  INVALID_DOCUMENT_MSG : string;
  basename : string -> string
}.

(** The six enumerators in the order the spec lists the categories. *)
Definition oval_results `{oval_headers} : list Z :=
  [OVAL_RESULT_TRUE; OVAL_RESULT_FALSE; OVAL_RESULT_ERROR;
   OVAL_RESULT_UNKNOWN; OVAL_RESULT_NOT_EVALUATED; OVAL_RESULT_NOT_APPLICABLE].

(** Modelled from the spec: the content levels of a directive
    (oval_results.h is not part of the sources); the spec distinguishes
    full detail from thin detail. *)
Inductive oval_result_directive_content : Set :=
| OVAL_DIRECTIVE_CONTENT_UNKNOWN
| OVAL_DIRECTIVE_CONTENT_THIN
| OVAL_DIRECTIVE_CONTENT_FULL.

Inductive oscap_document_type : Set :=
| OSCAP_DOCUMENT_OVAL_DEFINITIONS
| OSCAP_DOCUMENT_OVAL_SYSCHAR
| OSCAP_DOCUMENT_OVAL_RESULTS.

(** The modules registered by the file. *)
Inductive oscap_module : Set :=
| OVAL_VALIDATE
| OVAL_EVAL
| OVAL_COLLECT
| OVAL_ANALYSE
| OVAL_GENERATE
| OVAL_REPORT.

Definition module_usage (m : oscap_module) : string :=
  match m with
  | OVAL_VALIDATE => "[options] oval-file.xml"
  | OVAL_EVAL => "[options] oval-definitions.xml"
  | OVAL_COLLECT => "oval-definitions.xml"
  | OVAL_ANALYSE => "[options] oval-definitions.xml system-characteristics.xml"
  | OVAL_GENERATE => "<subcommand> [sub-options] oval-file.xml"
  | OVAL_REPORT => "[options] oval-file.xml"
  end.

Definition oscap_module_eqb (a b : oscap_module) : bool :=
  match a, b with
  | OVAL_VALIDATE, OVAL_VALIDATE | OVAL_EVAL, OVAL_EVAL
  | OVAL_COLLECT, OVAL_COLLECT | OVAL_ANALYSE, OVAL_ANALYSE
  | OVAL_GENERATE, OVAL_GENERATE | OVAL_REPORT, OVAL_REPORT => true
  | _, _ => false
  end.

(** [struct oscap_action], the fields this file reads or writes.  A
    [char *] that may be NULL is an [option]. *)
Record oscap_action : Type := {
  module : oscap_module;
  verbosity : Z;
  validate : Z;
  doctype : oscap_document_type;
  f_oval : string;
  f_syschar : string;
  f_results : option string;
  f_report : option string;
  id : option string;
  file_version : option string;
  url_oval : option string;
  url_syschar : option string
}.

(** ** Data of the file *)

(** [struct oval_usr]: one [int] per verdict category. *)
Record oval_usr : Set := {
  result_false : Z;
  result_true : Z;
  result_error : Z;
  result_unknown : Z;
  result_neval : Z;
  result_napp : Z
}.

(** [memset(usr, 0, sizeof(struct oval_usr))] *)
Definition usr_zero : oval_usr :=
  {| result_false := 0; result_true := 0; result_error := 0;
     result_unknown := 0; result_neval := 0; result_napp := 0 |}.

Definition INT_MAX : Z := 2147483647.
Definition INT_MIN : Z := -2147483648.

(** [x++] on an [int].  Overflow of a signed [int] is undefined in C; the
    model wraps around as two's complement hardware does. *)
Definition int_incr (x : Z) : Z :=
  if x =? INT_MAX then INT_MIN else x + 1.

(** What the callback reads of a reporter message. *)
Record oscap_reporter_message : Set := {
  user1str : string;
  user2num : Z
}.

(** The library's error record behind [oscap_err], [oscap_err_code] and
    [oscap_err_desc]. *)
Record oscap_error : Set := {
  err_code : Z;
  err_desc : string
}.

(** A definition model is seen here through the identifiers of its
    definitions. *)
Record oval_definition_model : Set := {
  definitions : list string
}.

Record oval_agent_session : Set := {
  sess_model : oval_definition_model;
  sess_name : string
}.

(** One entry of the directives, and the directives keyed by the
    enumerator of the result. *)
Record oval_result_directive : Set := {
  reported : bool;
  content : oval_result_directive_content
}.

Definition oval_result_directives : Set := Z -> oval_result_directive.

(** ** The library as seen from the handlers *)

(** What a library call answers: its return value and the error it
    raises, if any.  A raised error stays pending ([oscap_err]). *)
Record reply (A : Type) : Type := {
  value : A;
  raised : option oscap_error
}.
Arguments value {A} _.
Arguments raised {A} _.

(** The answers of the collaborators during one run.  Calls whose result
    the handlers never look at have no entry, [results_model_eval] apart
    (its answer is there to be ignored). *)
Record environment : Type := {
  validate_document : string -> reply bool;
  definition_model_import : string -> reply (option oval_definition_model);
  agent_new_session : oval_definition_model -> string -> reply bool;
  agent_eval_definition : string -> reply Z;
  agent_definition_result : string -> Z;
  agent_eval_system : reply Z;
  probe_query_sysinfo : reply Z;
  probe_query_objects : reply Z;
  syschar_model_import : string -> reply Z;
  results_model_eval : reply Z
}.

(** Everything a handler does that can be seen from outside, in order. *)
Inductive event : Type :=
| Stdout (s : string)
| Stderr (s : string)
| ModuleUsage (m : oscap_module) (err : option string)
| ValidateDocument (file : string) (doc : oscap_document_type) (reporter : bool)
| DefinitionModelImport (file : string) (r : option oval_definition_model)
| DefinitionModelFree (m : option oval_definition_model)
| SyscharModelNew (m : option oval_definition_model)
| SyscharModelImport (file : string) (r : Z)
| SyscharModelSetSysinfo
| SyscharModelExport (file : string)
| SyscharModelFree
| SysinfoFree
| ProbeSessionNew
| ProbeQuerySysinfo (r : Z)
| ProbeQueryObjects (r : Z)
| ProbeSessionDestroy
| AgentNewSession (name : string) (r : option oval_agent_session)
| AgentEvalDefinition (id : string) (r : Z)
| AgentEvalSystem (r : Z)
| AgentGetResultsModel
| AgentDestroySession
| MallocUsr
| FreeUsr
| ResultsModelNew
| ResultsModelEval
| ResultDirectivesNew
| ResultDirectivesFree
| ResultsModelExport (d : oval_result_directives) (file : string)
| Xslt (infile xsl : string) (outfile : string).

(** ** The monad of a handler

    State: the pending library error and the trace.  A computation either
    goes on with a value or has executed a C [return]. *)
Record state : Type := {
  pending : option oscap_error;
  trace : list event
}.

Definition M (R A : Type) : Type := state -> (A + R) * state.

Definition ret {R A} (a : A) : M R A := fun s => (inl a, s).

Definition bind {R A B} (m : M R A) (k : A -> M R B) : M R B :=
  fun s => match m s with
           | (inl a, s') => k a s'
           | (inr r, s') => (inr r, s')
           end.

(** The C statement [return r;]. *)
Definition return_ {R A} (r : R) : M R A := fun s => (inr r, s).

Notation "x <- m ;; k" := (bind m (fun x => k))
  (at level 61, m at next level, right associativity).
Notation "m ;; k" := (bind m (fun _ => k))
  (at level 61, right associativity).

Definition when {R} (b : bool) (m : M R unit) : M R unit :=
  if b then m else ret tt.

Definition emit {R} (e : event) : M R unit :=
  fun s => (inl tt, {| pending := pending s; trace := trace s ++ [e] |}).

(** The error pending after a call: the one it raised, else the one
    that was pending before. *)
Definition orelse {A} (a b : option A) : option A :=
  match a with
  | Some x => Some x
  | None => b
  end.

(** A call into the library: logged, answered by the environment. *)
Definition call {R A} (e : event) (r : reply A) : M R A :=
  fun s => (inl (value r),
            {| pending := orelse (raised r) (pending s);
               trace := trace s ++ [e] |}).

Definition oscap_err {R} : M R bool :=
  fun s => (inl (match pending s with Some _ => true | None => false end), s).

Definition oscap_err_code {R} : M R Z :=
  fun s => (inl (match pending s with Some e => err_code e | None => 0 end), s).

Definition oscap_err_desc {R} : M R string :=
  fun s => (inl (match pending s with Some e => err_desc e | None => EmptyString end), s).

Definition initial : state := {| pending := None; trace := [] |}.

(** Running a handler from a clean error state: its return value and
    what it did. *)
Definition run {R} (m : M R R) : R * list event :=
  match m initial with
  | (inl r, s) => (r, trace s)
  | (inr r, s) => (r, trace s)
  end.

Definition printf {R} (s : string) : M R unit := emit (Stdout s).
Definition eprintf {R} (s : string) : M R unit := emit (Stderr s).

Definition string_of_Z (n : Z) : string := NilZero.string_of_int (Z.to_int n).

Definition nl : string := String (Ascii.ascii_of_nat 10) EmptyString.
Definition cr : string := String (Ascii.ascii_of_nat 13) EmptyString.
Definition tab : string := String (Ascii.ascii_of_nat 9) EmptyString.

Notation "' pat <- m ;; k" := (bind m (fun x => match x with pat => k end))
  (at level 61, pat pattern, m at next level, right associativity).

(** ** Result directives *)

(** Modelled from the spec: the constructor and the two setters of the
    result directives (library code, not part of the sources).  The spec
    describes the directives as a per-category record of "included" and
    "detail level" driven by a verdict-category bitmask: a setter updates
    the entry of every result whose enumerator has a bit in the mask. *)
Definition oval_result_directives_new : oval_result_directives :=
  fun _ => {| reported := false; content := OVAL_DIRECTIVE_CONTENT_UNKNOWN |}.

Definition flag_has (flag c : Z) : bool := negb (Z.land flag c =? 0).

Definition oval_result_directives_set_reported
    (d : oval_result_directives) (flag : Z) (val : bool) : oval_result_directives :=
  fun c => if flag_has flag c
           then {| reported := val; content := content (d c) |}
           else d c.

Definition oval_result_directives_set_content
    (d : oval_result_directives) (flag : Z) (ct : oval_result_directive_content)
    : oval_result_directives :=
  fun c => if flag_has flag c
           then {| reported := reported (d c); content := ct |}
           else d c.

Infix "|||" := Z.lor (at level 50, left associativity).

(** ** The handlers *)

Section Handlers.

Context `{oval_headers}.
Variable env : environment.

(** The global [int VERBOSE], set by the option parser before a handler
    runs. *)
Variable VERBOSE : Z.

Section Library.

Context {R : Type}.

Definition oscap_validate_document (file : string) (doc : oscap_document_type)
    (reporter : bool) : M R bool :=
  call (ValidateDocument file doc reporter) (validate_document env file).

Definition oval_definition_model_import (file : string)
    : M R (option oval_definition_model) :=
  let r := definition_model_import env file in
  call (DefinitionModelImport file (value r)) r.

Definition oval_definition_model_free (m : option oval_definition_model) : M R unit :=
  emit (DefinitionModelFree m).

Definition oval_syschar_model_new (m : option oval_definition_model) : M R unit :=
  emit (SyscharModelNew m).

Definition oval_syschar_model_import (file : string) : M R Z :=
  let r := syschar_model_import env file in
  call (SyscharModelImport file (value r)) r.

Definition oval_probe_session_new : M R unit := emit ProbeSessionNew.

Definition oval_probe_query_sysinfo : M R Z :=
  let r := probe_query_sysinfo env in call (ProbeQuerySysinfo (value r)) r.

Definition oval_probe_query_objects : M R Z :=
  let r := probe_query_objects env in call (ProbeQueryObjects (value r)) r.

Definition oval_agent_new_session (m : oval_definition_model) (name : string)
    : M R (option oval_agent_session) :=
  let r := agent_new_session env m name in
  let v := if value r
           then Some {| sess_model := m; sess_name := name |}
           else None in
  call (AgentNewSession name v) {| value := v; raised := raised r |}.

Definition oval_agent_eval_definition (sess : oval_agent_session) (i : string)
    : M R Z :=
  let r := agent_eval_definition env i in call (AgentEvalDefinition i (value r)) r.

(** Modelled from the spec: [oval_agent_eval_system] (library code, not
    part of the sources) evaluates every definition of the session's
    model and invokes the callback once for each with a message that
    carries the identifier and the verdict; then it returns. *)
Fixpoint report_definitions
    (cb : oscap_reporter_message -> oval_usr -> M R (Z * oval_usr))
    (defs : list string) (arg : oval_usr) : M R oval_usr :=
  match defs with
  | [] => ret arg
  | d :: rest =>
      ' (_, arg') <- cb {| user1str := d;
                           user2num := agent_definition_result env d |} arg ;;
      report_definitions cb rest arg'
  end.

Definition oval_agent_eval_system (sess : oval_agent_session)
    (cb : oscap_reporter_message -> oval_usr -> M R (Z * oval_usr))
    (arg : oval_usr) : M R (Z * oval_usr) :=
  arg' <- report_definitions cb (definitions (sess_model sess)) arg ;;
  let r := agent_eval_system env in
  v <- call (AgentEvalSystem (value r)) r ;;
  ret (v, arg').

Definition oval_results_model_eval : M R Z :=
  call ResultsModelEval (results_model_eval env).

(** [oval_gen_report]: the return value of [app_xslt] is passed on; the
    evaluate handler drops it. *)
Definition oval_gen_report (infile outfile : string) : M R unit :=
  emit (Xslt infile "oval-results-report.xsl" outfile).

(** The six [usr->result_...++] statements. *)
Definition incr_true (u : oval_usr) : oval_usr :=
  {| result_false := result_false u; result_true := int_incr (result_true u);
     result_error := result_error u; result_unknown := result_unknown u;
     result_neval := result_neval u; result_napp := result_napp u |}.

Definition incr_false (u : oval_usr) : oval_usr :=
  {| result_false := int_incr (result_false u); result_true := result_true u;
     result_error := result_error u; result_unknown := result_unknown u;
     result_neval := result_neval u; result_napp := result_napp u |}.

Definition incr_error (u : oval_usr) : oval_usr :=
  {| result_false := result_false u; result_true := result_true u;
     result_error := int_incr (result_error u); result_unknown := result_unknown u;
     result_neval := result_neval u; result_napp := result_napp u |}.

Definition incr_unknown (u : oval_usr) : oval_usr :=
  {| result_false := result_false u; result_true := result_true u;
     result_error := result_error u; result_unknown := int_incr (result_unknown u);
     result_neval := result_neval u; result_napp := result_napp u |}.

Definition incr_neval (u : oval_usr) : oval_usr :=
  {| result_false := result_false u; result_true := result_true u;
     result_error := result_error u; result_unknown := result_unknown u;
     result_neval := int_incr (result_neval u); result_napp := result_napp u |}.

Definition incr_napp (u : oval_usr) : oval_usr :=
  {| result_false := result_false u; result_true := result_true u;
     result_error := result_error u; result_unknown := result_unknown u;
     result_neval := result_neval u; result_napp := int_incr (result_napp u) |}.

(** The [switch] of the callback: the first matching [case], else
    [default: break]. *)
Definition tally (n : Z) (u : oval_usr) : oval_usr :=
  if n =? OVAL_RESULT_TRUE then incr_true u
  else if n =? OVAL_RESULT_FALSE then incr_false u
  else if n =? OVAL_RESULT_ERROR then incr_error u
  else if n =? OVAL_RESULT_UNKNOWN then incr_unknown u
  else if n =? OVAL_RESULT_NOT_EVALUATED then incr_neval u
  else if n =? OVAL_RESULT_NOT_APPLICABLE then incr_napp u
  else u.

Definition app_oval_callback (msg : oscap_reporter_message) (arg : oval_usr)
    : M R (Z * oval_usr) :=
  when (VERBOSE >=? 0)
    (printf ("Definition " ++ user1str msg ++ ": "
             ++ oval_result_get_text (user2num msg) ++ nl)) ;;
  ret (0, tally (user2num msg) arg).

(** The directives both exporting handlers build (the two blocks are the
    same text in the source). *)
Definition all_results_full : oval_result_directives :=
  let res_direct := oval_result_directives_new in
  let res_direct :=
    oval_result_directives_set_reported res_direct
      (OVAL_RESULT_TRUE ||| OVAL_RESULT_FALSE |||
       OVAL_RESULT_UNKNOWN ||| OVAL_RESULT_NOT_EVALUATED |||
       OVAL_RESULT_ERROR ||| OVAL_RESULT_NOT_APPLICABLE) true in
  oval_result_directives_set_content res_direct
    (OVAL_RESULT_TRUE ||| OVAL_RESULT_FALSE |||
     OVAL_RESULT_UNKNOWN ||| OVAL_RESULT_NOT_EVALUATED |||
     OVAL_RESULT_NOT_APPLICABLE ||| OVAL_RESULT_ERROR)
    OVAL_DIRECTIVE_CONTENT_FULL.

Definition export_results (file : string) : M R unit :=
  emit ResultDirectivesNew ;;
  emit (ResultsModelExport all_results_full file) ;;
  emit ResultDirectivesFree.

End Library.

Definition app_collect_oval (action : oscap_action)
    : M oscap_exitcode oscap_exitcode :=
  def_model <- oval_definition_model_import (f_oval action) ;;
  oval_syschar_model_new def_model ;;
  oval_probe_session_new ;;
  r <- oval_probe_query_sysinfo ;;
  when (negb (r =? 0))
    (emit ProbeSessionDestroy ;;
     emit SyscharModelFree ;;
     oval_definition_model_free def_model ;;
     return_ OSCAP_ERROR) ;;
  emit SyscharModelSetSysinfo ;;
  emit SysinfoFree ;;
  r <- oval_probe_query_objects ;;
  when (negb (r =? 0))
    (emit ProbeSessionDestroy ;;
     emit SyscharModelFree ;;
     oval_definition_model_free def_model ;;
     return_ OSCAP_ERROR) ;;
  emit (SyscharModelExport "/dev/stdout") ;;
  emit ProbeSessionDestroy ;;
  emit SyscharModelFree ;;
  oval_definition_model_free def_model ;;
  return_ OSCAP_OK.

(** Lines 329-345: the return code of the evaluate handler. *)
Definition return_code (action : oscap_action) (r : Z) (usr : oval_usr)
    : M oscap_exitcode oscap_exitcode :=
  match id action with
  | Some _ =>
      if negb (r =? OVAL_RESULT_FALSE) && negb (r =? OVAL_RESULT_UNKNOWN)
      then return_ OSCAP_OK
      else return_ OSCAP_FAIL
  | None =>
      if (result_false usr =? 0) && (result_unknown usr =? 0)
      then emit FreeUsr ;; return_ OSCAP_OK
      else emit FreeUsr ;; return_ OSCAP_FAIL
  end.

Definition print_report (usr : oval_usr) : M oscap_exitcode unit :=
  printf ("===== REPORT =====" ++ nl) ;;
  printf ("TRUE:          " ++ cr ++ tab ++ tab ++ " "
          ++ string_of_Z (result_true usr) ++ nl) ;;
  printf ("FALSE:         " ++ cr ++ tab ++ tab ++ " "
          ++ string_of_Z (result_false usr) ++ nl) ;;
  printf ("ERROR:         " ++ cr ++ tab ++ tab ++ " "
          ++ string_of_Z (result_error usr) ++ nl) ;;
  printf ("UNKNOWN:       " ++ cr ++ tab ++ tab ++ " "
          ++ string_of_Z (result_unknown usr) ++ nl) ;;
  printf ("NOT EVALUATED: " ++ cr ++ tab ++ tab ++ " "
          ++ string_of_Z (result_neval usr) ++ nl) ;;
  printf ("NOT APPLICABLE:" ++ cr ++ tab ++ tab ++ " "
          ++ string_of_Z (result_napp usr) ++ nl).

(** The evaluation step: one definition, or the whole model through the
    callback. *)
Definition evaluation (action : oscap_action) (sess : oval_agent_session)
    (usr : oval_usr) : M oscap_exitcode (Z * oval_usr) :=
  match id action with
  | Some i =>
      r <- oval_agent_eval_definition sess i ;;
      when (VERBOSE >=? 0)
        (printf ("Definition " ++ i ++ ": " ++ oval_result_get_text r ++ nl)) ;;
      ret (r, usr)
  | None => oval_agent_eval_system sess app_oval_callback usr
  end.

Definition app_evaluate_oval (action : oscap_action)
    : M oscap_exitcode oscap_exitcode :=
  when (negb (validate action =? 0))
    (ok <- oscap_validate_document (f_oval action)
             OSCAP_DOCUMENT_OVAL_DEFINITIONS (verbosity action >=? 0) ;;
     when (negb ok)
       (e <- oscap_err ;;
        when e
          (d <- oscap_err_desc ;;
           eprintf ("ERROR: " ++ d ++ nl) ;;
           return_ OSCAP_FAIL) ;;
        printf (INVALID_DOCUMENT_MSG ++ nl) ;;
        return_ OSCAP_ERROR)) ;;
  def_model <- oval_definition_model_import (f_oval action) ;;
  match def_model with
  | None =>
      eprintf ("Failed to import the definition model ("
               ++ f_oval action ++ ")." ++ nl) ;;
      return_ OSCAP_ERROR
  | Some def_model =>
  sess <- oval_agent_new_session def_model (basename (f_oval action)) ;;
  match sess with
  | None =>
      e <- oscap_err ;;
      when e
        (c <- oscap_err_code ;;
         d <- oscap_err_desc ;;
         eprintf ("Error: (" ++ string_of_Z c ++ ") " ++ d ++ nl)) ;;
      eprintf ("Failed to create new agent session." ++ nl) ;;
      return_ OSCAP_ERROR
  | Some sess =>
  (* usr = malloc(...); memset(usr, 0, ...): the result of malloc is not
     tested, the allocation is taken to succeed *)
  emit MallocUsr ;;
  ' (r, usr) <- evaluation action sess usr_zero ;;
  when (VERBOSE >=? 0) (printf ("Evaluation done." ++ nl)) ;;
  e <- oscap_err ;;
  when ((r =? -1) && e)
    (c <- oscap_err_code ;;
     d <- oscap_err_desc ;;
     eprintf ("Error: (" ++ string_of_Z c ++ ") " ++ d ++ nl) ;;
     return_ OSCAP_ERROR) ;;
  when ((VERBOSE >=? 0) && match id action with None => true | Some _ => false end)
    (print_report usr) ;;
  match f_results action with
  | Some results =>
      emit AgentGetResultsModel ;;
      export_results results ;;
      match f_report action with
      | Some report => oval_gen_report results report
      | None => ret tt
      end
  | None => ret tt
  end ;;
  emit AgentDestroySession ;;
  oval_definition_model_free (Some def_model) ;;
  return_code action r usr
  end
  end.

Definition app_analyse_oval (action : oscap_action)
    : M oscap_exitcode oscap_exitcode :=
  def_model <- oval_definition_model_import (f_oval action) ;;
  match def_model with
  | None =>
      eprintf ("Failed to import the definition model ("
               ++ f_oval action ++ ")." ++ nl) ;;
      return_ OSCAP_ERROR
  | Some def_model =>
  oval_syschar_model_new (Some def_model) ;;
  r <- oval_syschar_model_import (f_syschar action) ;;
  when (r =? -1)
    (eprintf ("Failed to import the system characteristics model ("
              ++ f_syschar action ++ ")." ++ nl) ;;
     e <- oscap_err ;;
     when e (d <- oscap_err_desc ;; eprintf ("ERROR: " ++ d ++ nl)) ;;
     oval_definition_model_free (Some def_model) ;;
     return_ OSCAP_ERROR) ;;
  emit ResultsModelNew ;;
  oval_results_model_eval ;;
  match f_results action with
  | Some results => export_results results
  | None => ret tt
  end ;;
  return_ OSCAP_OK
  end.

End Handlers.

(** ** The option parser *)

(** [enum oval_opt]; ['o'] is 111. *)
Definition OVAL_OPT_RESULT_FILE : Z := 1.
Definition OVAL_OPT_REPORT_FILE : Z := 2.
Definition OVAL_OPT_FILE_VERSION : Z := 3.
Definition OVAL_OPT_ID : Z := 4.
Definition OVAL_OPT_OUTPUT : Z := 111.

(** What [getopt_long] stores through the [flag] pointer of a long option
    (the four flag entries of [long_options]). *)
Inductive flag_store : Set :=
| StoreDoctype (v : oscap_document_type)
| StoreValidate (v : Z).

(** One return of [getopt_long]: the value returned, [optarg], and the
    store it made.  [getopt_long] is libc's; a scan of the command line is
    given by the returns it makes before -1 and by what it leaves
    afterwards: [optind] and the argument vector, which it reorders in
    place while it scans (the options are moved in front of the
    positional arguments). *)
Record getopt_return : Set := {
  getopt_c : Z;
  getopt_optarg : option string;
  getopt_stored : option flag_store
}.

Record getopt_scan : Set := {
  getopt_returns : list getopt_return;
  optind : Z;
  getopt_argv : list string
}.

(** What the parser leaves: its return value, the action it filled in and
    the global [VERBOSE]. *)
Record parsed : Type := {
  parsed_ok : bool;
  parsed_action : oscap_action;
  parsed_VERBOSE : Z
}.

Definition set_doctype (a : oscap_action) (v : oscap_document_type) : oscap_action :=
  {| module := module a; verbosity := verbosity a; validate := validate a;
     doctype := v; f_oval := f_oval a; f_syschar := f_syschar a;
     f_results := f_results a; f_report := f_report a; id := id a;
     file_version := file_version a; url_oval := url_oval a;
     url_syschar := url_syschar a |}.

Definition set_validate (a : oscap_action) (v : Z) : oscap_action :=
  {| module := module a; verbosity := verbosity a; validate := v;
     doctype := doctype a; f_oval := f_oval a; f_syschar := f_syschar a;
     f_results := f_results a; f_report := f_report a; id := id a;
     file_version := file_version a; url_oval := url_oval a;
     url_syschar := url_syschar a |}.

Definition set_f_results (a : oscap_action) (v : option string) : oscap_action :=
  {| module := module a; verbosity := verbosity a; validate := validate a;
     doctype := doctype a; f_oval := f_oval a; f_syschar := f_syschar a;
     f_results := v; f_report := f_report a; id := id a;
     file_version := file_version a; url_oval := url_oval a;
     url_syschar := url_syschar a |}.

Definition set_f_report (a : oscap_action) (v : option string) : oscap_action :=
  {| module := module a; verbosity := verbosity a; validate := validate a;
     doctype := doctype a; f_oval := f_oval a; f_syschar := f_syschar a;
     f_results := f_results a; f_report := v; id := id a;
     file_version := file_version a; url_oval := url_oval a;
     url_syschar := url_syschar a |}.

Definition set_id (a : oscap_action) (v : option string) : oscap_action :=
  {| module := module a; verbosity := verbosity a; validate := validate a;
     doctype := doctype a; f_oval := f_oval a; f_syschar := f_syschar a;
     f_results := f_results a; f_report := f_report a; id := v;
     file_version := file_version a; url_oval := url_oval a;
     url_syschar := url_syschar a |}.

Definition set_file_version (a : oscap_action) (v : option string) : oscap_action :=
  {| module := module a; verbosity := verbosity a; validate := validate a;
     doctype := doctype a; f_oval := f_oval a; f_syschar := f_syschar a;
     f_results := f_results a; f_report := f_report a; id := id a;
     file_version := v; url_oval := url_oval a;
     url_syschar := url_syschar a |}.

Definition set_url_oval (a : oscap_action) (v : option string) : oscap_action :=
  {| module := module a; verbosity := verbosity a; validate := validate a;
     doctype := doctype a; f_oval := f_oval a; f_syschar := f_syschar a;
     f_results := f_results a; f_report := f_report a; id := id a;
     file_version := file_version a; url_oval := v;
     url_syschar := url_syschar a |}.

Definition set_url_syschar (a : oscap_action) (v : option string) : oscap_action :=
  {| module := module a; verbosity := verbosity a; validate := validate a;
     doctype := doctype a; f_oval := f_oval a; f_syschar := f_syschar a;
     f_results := f_results a; f_report := f_report a; id := id a;
     file_version := file_version a; url_oval := url_oval a;
     url_syschar := v |}.

Definition store (st : option flag_store) (a : oscap_action) : oscap_action :=
  match st with
  | Some (StoreDoctype v) => set_doctype a v
  | Some (StoreValidate v) => set_validate a v
  | None => a
  end.

(** [argv[i]]; the entry at [argc] is the NULL that ends the vector. *)
Definition argv_at (argv : list string) (i : Z) : option string :=
  if i <? 0 then None else nth_error argv (Z.to_nat i).

Section Parser.

(** [argv] is the vector the parser is called with and [argc] its
    length; the positional arguments are read after the loop, from the
    vector as [getopt_long] left it. *)
Variable argv : list string.
Variable scan : getopt_scan.

Definition argc : Z := Z.of_nat (List.length argv).

(** Modelled from the spec: [oscap_module_usage] (oscap-tool, not part of
    the sources) prints the usage of the module, with the message if
    there is one, to the stream it is given (here always stderr); the
    parser fails with its result. *)
Definition oscap_module_usage {A} (a : oscap_action) (err : option string)
    : M parsed A :=
  emit (ModuleUsage (module a) err) ;;
  return_ {| parsed_ok := false; parsed_action := a;
             parsed_VERBOSE := verbosity a |}.

(** The [while] loop over the returns of [getopt_long]. *)
Fixpoint getopt_loop (rs : list getopt_return) (action : oscap_action)
    : M parsed oscap_action :=
  match rs with
  | [] => ret action
  | r :: rs' =>
      let c := getopt_c r in
      if c =? -1 then ret action else
      let action := store (getopt_stored r) action in
      if c =? OVAL_OPT_RESULT_FILE
      then getopt_loop rs' (set_f_results action (getopt_optarg r))
      else if c =? OVAL_OPT_REPORT_FILE
      then getopt_loop rs' (set_f_report action (getopt_optarg r))
      else if c =? OVAL_OPT_OUTPUT
      then getopt_loop rs' (set_f_results action (getopt_optarg r))
      else if c =? OVAL_OPT_ID
      then getopt_loop rs' (set_id action (getopt_optarg r))
      else if c =? OVAL_OPT_FILE_VERSION
      then getopt_loop rs' (set_file_version action (getopt_optarg r))
      else if c =? 0
      then getopt_loop rs' action
      else oscap_module_usage action None
  end.

Definition getopt_oval (action : oscap_action) : M parsed parsed :=
  let action := set_doctype action OSCAP_DOCUMENT_OVAL_DEFINITIONS in
  action <- getopt_loop (getopt_returns scan) action ;;
  when (optind scan >=? argc)
    (oscap_module_usage action (Some "Definitions file needs to be specified!"%string)) ;;
  let action := set_url_oval action (argv_at (getopt_argv scan) (optind scan)) in
  action <-
    (if oscap_module_eqb (module action) OVAL_ANALYSE
     then
       when (optind scan + 1 >? argc)
         (oscap_module_usage action
            (Some "System characteristics file needs to be specified!"%string)) ;;
       ret (set_url_syschar action (argv_at (getopt_argv scan) (optind scan + 1)))
     else ret action) ;;
  return_ {| parsed_ok := true; parsed_action := action;
             parsed_VERBOSE := verbosity action |}.

End Parser.

(** ** Resources held at the end of a trace *)

Inductive resource : Set :=
| DefinitionModel
| SyscharModel
| Sysinfo
| ProbeSession
| AgentSession
| Usr
| ResultsModel
| ResultDirectives.

Definition resource_eq_dec (a b : resource) : {a = b} + {a <> b}.
Proof. decide equality. Defined.

Definition acquires (e : event) : option resource :=
  match e with
  | DefinitionModelImport _ (Some _) => Some DefinitionModel
  | SyscharModelNew _ => Some SyscharModel
  | ProbeSessionNew => Some ProbeSession
  | ProbeQuerySysinfo r => if r =? 0 then Some Sysinfo else None
  | AgentNewSession _ (Some _) => Some AgentSession
  | MallocUsr => Some Usr
  | ResultsModelNew => Some ResultsModel
  | ResultDirectivesNew => Some ResultDirectives
  | _ => None
  end.

Definition releases (e : event) : option resource :=
  match e with
  | DefinitionModelFree (Some _) => Some DefinitionModel
  | SyscharModelFree => Some SyscharModel
  | SysinfoFree => Some Sysinfo
  | ProbeSessionDestroy => Some ProbeSession
  | AgentDestroySession => Some AgentSession
  | FreeUsr => Some Usr
  | ResultDirectivesFree => Some ResultDirectives
  | _ => None
  end.

Fixpoint held_after (tr : list event) (h : list resource) : list resource :=
  match tr with
  | [] => h
  | e :: tr' =>
      let h := match acquires e with Some r => h ++ [r] | None => h end in
      let h := match releases e with Some r => remove resource_eq_dec r h | None => h end in
      held_after tr' h
  end.

(** The resources a run acquired and did not release. *)
Definition leaked (tr : list event) : list resource := held_after tr [].

(** ** Observations on a trace *)

Definition is_stderr (e : event) : bool :=
  match e with Stderr _ | ModuleUsage _ _ => true | _ => false end.

Definition is_results_export (e : event) : bool :=
  match e with ResultsModelExport _ _ => true | _ => false end.

Definition is_syschar_export (e : event) : bool :=
  match e with SyscharModelExport _ => true | _ => false end.

Definition is_model_construction (e : event) : bool :=
  match e with
  | DefinitionModelImport _ _ | SyscharModelNew _ | SyscharModelImport _ _
  | ResultsModelNew => true
  | _ => false
  end.

Definition stdout_of (tr : list event) : list string :=
  flat_map (fun e => match e with Stdout s => [s] | _ => [] end) tr.

Definition stderr_of (tr : list event) : list string :=
  flat_map (fun e => match e with Stderr s => [s] | _ => [] end) tr.

(** ** What a run leaves

    Definitions used to state the properties: sums of counters, the
    aggregator after a batch, and the outcome of the evaluate workflow
    path by path ([evaluate_outcome], proved equal to the run of
    [app_evaluate_oval] below). *)

(** The six counters in the order of the [switch], and their sum. *)
Definition counters (u : oval_usr) : list Z :=
  [result_true u; result_false u; result_error u; result_unknown u;
   result_neval u; result_napp u].

Definition usr_total (u : oval_usr) : Z := fold_right Z.add 0 (counters u).

(** Whether a number is one of the six enumerators. *)
Definition is_result `{oval_headers} (n : Z) : bool := existsb (Z.eqb n) oval_results.

(** Counter [i] went up by one and the others kept their value. *)
Definition only_incremented (i : nat) (u u' : oval_usr) : Prop :=
  forall j, nth j (counters u') 0 = nth j (counters u) 0 + (if Nat.eqb j i then 1 else 0).

Definition in_range (u : oval_usr) : Prop :=
  Forall (fun x => 0 <= x < INT_MAX) (counters u).

Section BatchSummary.

Context `{oval_headers}.
Variable env : environment.
Variable VERBOSE : Z.

(** The aggregator after the callback has run on the definitions. *)
Definition tallies (defs : list string) (u : oval_usr) : oval_usr :=
  fold_left (fun u d => tally (agent_definition_result env d) u) defs u.

(** The lines the callback prints on the way. *)
Definition callback_lines (defs : list string) : list event :=
  if VERBOSE >=? 0
  then map (fun d => Stdout ("Definition " ++ d ++ ": "
                             ++ oval_result_get_text (agent_definition_result env d)
                             ++ nl)) defs
  else [].

End BatchSummary.

Section EvaluateOutcome.

Context `{oval_headers}.
Variable env : environment.
Variable VERBOSE : Z.
Variable action : oscap_action.

Definition error_line (p : option oscap_error) : string :=
  match p with
  | Some e => "Error: (" ++ string_of_Z (err_code e) ++ ") " ++ err_desc e ++ nl
  | None => "Error: (0) " ++ nl
  end.

Definition report_lines (usr : oval_usr) : list event :=
  [Stdout ("===== REPORT =====" ++ nl);
   Stdout ("TRUE:          " ++ cr ++ tab ++ tab ++ " " ++ string_of_Z (result_true usr) ++ nl);
   Stdout ("FALSE:         " ++ cr ++ tab ++ tab ++ " " ++ string_of_Z (result_false usr) ++ nl);
   Stdout ("ERROR:         " ++ cr ++ tab ++ tab ++ " " ++ string_of_Z (result_error usr) ++ nl);
   Stdout ("UNKNOWN:       " ++ cr ++ tab ++ tab ++ " " ++ string_of_Z (result_unknown usr) ++ nl);
   Stdout ("NOT EVALUATED: " ++ cr ++ tab ++ tab ++ " " ++ string_of_Z (result_neval usr) ++ nl);
   Stdout ("NOT APPLICABLE:" ++ cr ++ tab ++ tab ++ " " ++ string_of_Z (result_napp usr) ++ nl)].

Definition export_events : list event :=
  match f_results action with
  | Some results =>
      [AgentGetResultsModel; ResultDirectivesNew;
       ResultsModelExport all_results_full results; ResultDirectivesFree] ++
      match f_report action with
      | Some report => [Xslt results "oval-results-report.xsl" report]
      | None => []
      end
  | None => []
  end.

(** The whole of a run of the evaluate workflow, path by path. *)
Definition evaluate_outcome : oscap_exitcode * list event :=
  let f := f_oval action in
  let v := validate_document env f in
  let checked := negb (validate action =? 0) in
  let vev := if checked
             then [ValidateDocument f OSCAP_DOCUMENT_OVAL_DEFINITIONS (verbosity action >=? 0)]
             else [] in
  if checked && negb (value v)
  then match raised v with
       | Some e => (OSCAP_FAIL, vev ++ [Stderr ("ERROR: " ++ err_desc e ++ nl)])
       | None => (OSCAP_ERROR, vev ++ [Stdout (INVALID_DOCUMENT_MSG ++ nl)])
       end
  else
  let p1 := if checked then raised v else None in
  let di := definition_model_import env f in
  match value di with
  | None =>
      (OSCAP_ERROR,
       vev ++ [DefinitionModelImport f None;
               Stderr ("Failed to import the definition model (" ++ f ++ ")." ++ nl)])
  | Some m =>
  let ns := agent_new_session env m (basename f) in
  let p3 := orelse (raised ns) (orelse (raised di) p1) in
  if negb (value ns)
  then (OSCAP_ERROR,
        vev ++ [DefinitionModelImport f (Some m); AgentNewSession (basename f) None] ++
        match p3 with Some _ => [Stderr (error_line p3)] | None => [] end ++
        [Stderr ("Failed to create new agent session." ++ nl)])
  else
  let sess := {| sess_model := m; sess_name := basename f |} in
  let start := vev ++ [DefinitionModelImport f (Some m);
                       AgentNewSession (basename f) (Some sess); MallocUsr] in
  let '(r, usr, p4, evs) :=
    match id action with
    | Some i =>
        let ed := agent_eval_definition env i in
        (value ed, usr_zero, orelse (raised ed) p3,
         [AgentEvalDefinition i (value ed)] ++
         if VERBOSE >=? 0
         then [Stdout ("Definition " ++ i ++ ": " ++ oval_result_get_text (value ed) ++ nl)]
         else [])
    | None =>
        let es := agent_eval_system env in
        (value es, tallies env (definitions m) usr_zero, orelse (raised es) p3,
         callback_lines env VERBOSE (definitions m) ++ [AgentEvalSystem (value es)])
    end in
  let done := if VERBOSE >=? 0 then [Stdout ("Evaluation done." ++ nl)] else [] in
  if (r =? -1) && match p4 with Some _ => true | None => false end
  then (OSCAP_ERROR, start ++ evs ++ done ++ [Stderr (error_line p4)])
  else
  let report :=
    if (VERBOSE >=? 0) && match id action with None => true | Some _ => false end
    then report_lines usr else [] in
  let cleanup := [AgentDestroySession; DefinitionModelFree (Some m)] in
  let before := start ++ evs ++ done ++ report ++ export_events ++ cleanup in
  match id action with
  | Some _ =>
      if negb (r =? OVAL_RESULT_FALSE) && negb (r =? OVAL_RESULT_UNKNOWN)
      then (OSCAP_OK, before) else (OSCAP_FAIL, before)
  | None =>
      if (result_false usr =? 0) && (result_unknown usr =? 0)
      then (OSCAP_OK, before ++ [FreeUsr]) else (OSCAP_FAIL, before ++ [FreeUsr])
  end
  end.

End EvaluateOutcome.

(** The clean-up of the evaluate workflow is reached: the evaluation was
    made and did not end in a fault. *)
Definition is_session_destroy (e : event) : bool :=
  match e with AgentDestroySession => true | _ => false end.

Definition evaluation_completed (tr : list event) : bool := existsb is_session_destroy tr.

Definition releasing (e : event) : bool :=
  match releases e with Some _ => true | None => false end.

Definition full_entry : oval_result_directive :=
  {| reported := true; content := OVAL_DIRECTIVE_CONTENT_FULL |}.

(** Every export in the trace carries the directives [all_results_full]. *)
Definition exports_all_full `{oval_headers} (e : event) : Prop :=
  match e with
  | ResultsModelExport d _ => d = all_results_full
  | _ => True
  end.

(** The environment with another answer of [oval_results_model_eval]. *)
Definition with_results_model_eval (env : environment) (r : reply Z) : environment :=
  {| validate_document := validate_document env;
     definition_model_import := definition_model_import env;
     agent_new_session := agent_new_session env;
     agent_eval_definition := agent_eval_definition env;
     agent_definition_result := agent_definition_result env;
     agent_eval_system := agent_eval_system env;
     probe_query_sysinfo := probe_query_sysinfo env;
     probe_query_objects := probe_query_objects env;
     syschar_model_import := syschar_model_import env;
     results_model_eval := r |}.

(** ** Runs on examples *)

(** An assignment of the enumerators as distinct bit flags, the layout
    the masks built with [|] in the source call for; used to run the
    handlers on examples. *)
Definition libopenscap : oval_headers :=
  {| OVAL_RESULT_TRUE := 1;
     OVAL_RESULT_FALSE := 2;
     OVAL_RESULT_UNKNOWN := 4;
     OVAL_RESULT_ERROR := 8;
     OVAL_RESULT_NOT_EVALUATED := 16;
     OVAL_RESULT_NOT_APPLICABLE := 32;
     oval_result_get_text := fun n =>
       if n =? 1 then "true"%string else if n =? 2 then "false"%string
       else if n =? 4 then "unknown"%string else if n =? 8 then "error"%string
       else if n =? 16 then "not evaluated"%string
       else if n =? 32 then "not applicable"%string
       else EmptyString;
     INVALID_DOCUMENT_MSG := "invalid document";
     basename := fun s => s |}.

Definition quiet (A : Type) (v : A) : reply A := {| value := v; raised := None |}.
Arguments quiet {A} v.

(** An environment in which every collaborator succeeds; the definitions
    of the model evaluate to the given verdict. *)
Definition fair_weather (defs : list string) (verdict : string -> Z) : environment :=
  {| validate_document := fun _ => quiet true;
     definition_model_import := fun _ => quiet (Some {| definitions := defs |});
     agent_new_session := fun _ _ => quiet true;
     agent_eval_definition := fun i => quiet (verdict i);
     agent_definition_result := verdict;
     agent_eval_system := quiet 0;
     probe_query_sysinfo := quiet 0;
     probe_query_objects := quiet 0;
     syschar_model_import := fun _ => quiet 0;
     results_model_eval := quiet 0 |}.

Definition eval_action (i : option string) (results : option string) : oscap_action :=
  {| module := OVAL_EVAL; verbosity := 0; validate := 1;
     doctype := OSCAP_DOCUMENT_OVAL_DEFINITIONS;
     f_oval := "defs.xml"; f_syschar := "syschar.xml";
     f_results := results; f_report := None; id := i;
     file_version := None; url_oval := None; url_syschar := None |}.

Definition analyse_action (results : option string) : oscap_action :=
  {| module := OVAL_ANALYSE; verbosity := 0; validate := 1;
     doctype := OSCAP_DOCUMENT_OVAL_DEFINITIONS;
     f_oval := "defs.xml"; f_syschar := "syschar.xml";
     f_results := results; f_report := None; id := None;
     file_version := None; url_oval := None; url_syschar := None |}.

(** No model behind the definitions file, and a probe that answers. *)
Definition no_model : environment :=
  {| validate_document := fun _ => quiet true;
     definition_model_import := fun _ => quiet None;
     agent_new_session := fun _ _ => quiet true;
     agent_eval_definition := fun _ => quiet 1;
     agent_definition_result := fun _ => 1;
     agent_eval_system := quiet 0;
     probe_query_sysinfo := quiet 0;
     probe_query_objects := quiet 0;
     syschar_model_import := fun _ => quiet 0;
     results_model_eval := quiet 0 |}.

(** Ten definitions, for a model in which every verdict is false. *)
Definition ten : list string :=
  ["d0"; "d1"; "d2"; "d3"; "d4"; "d5"; "d6"; "d7"; "d8"; "d9"]%string.

(** Three definitions; b evaluates to false (2), a and c to true (1). *)
Definition three : list string := ["a"; "b"; "c"]%string.

Definition mixed (d : string) : Z :=
  if String.eqb d "b" then 2 else 1.

Definition session_of (defs : list string) : oval_agent_session :=
  {| sess_model := {| definitions := defs |}; sess_name := "defs.xml" |}.

(** A validator that rejects every document, with or without an error
    of its own. *)
Definition rejecting (e : option oscap_error) : environment :=
  {| validate_document := fun _ => {| value := false; raised := e |};
     definition_model_import := fun _ => quiet (Some {| definitions := three |});
     agent_new_session := fun _ _ => quiet true;
     agent_eval_definition := fun i => quiet (mixed i);
     agent_definition_result := mixed;
     agent_eval_system := quiet 0;
     probe_query_sysinfo := quiet 0;
     probe_query_objects := quiet 0;
     syschar_model_import := fun _ => quiet 0;
     results_model_eval := quiet 0 |}.

(** An agent whose batch evaluation ends in a fault: -1 and an error. *)
Definition faulty_agent : environment :=
  {| validate_document := fun _ => quiet true;
     definition_model_import := fun _ => quiet (Some {| definitions := three |});
     agent_new_session := fun _ _ => quiet true;
     agent_eval_definition := fun i => quiet (mixed i);
     agent_definition_result := mixed;
     agent_eval_system :=
       {| value := -1;
          raised := Some {| err_code := 1; err_desc := "probe failed" |} |};
     probe_query_sysinfo := quiet 0;
     probe_query_objects := quiet 0;
     syschar_model_import := fun _ => quiet 0;
     results_model_eval := quiet 0 |}.

Definition analyse_one_file : list string := ["oscap"; "oval"; "analyse"; "defs.xml"]%string.

From Stdlib Require Import Permutation.

(** ** The module table and the report handler *)

(** The [.func] of a module. *)
Inductive oval_handler : Set :=
| handler_validate_xml
| handler_evaluate_oval
| handler_collect_oval
| handler_analyse_oval
| handler_oval_xslt.

Definition module_func (m : oscap_module) : option oval_handler :=
  match m with
  | OVAL_VALIDATE => Some handler_validate_xml
  | OVAL_EVAL => Some handler_evaluate_oval
  | OVAL_COLLECT => Some handler_collect_oval
  | OVAL_ANALYSE => Some handler_analyse_oval
  | OVAL_GENERATE => None
  | OVAL_REPORT => Some handler_oval_xslt
  end.

(** The [.user] of a module: the stylesheet of the report module, NULL
    elsewhere. *)
Definition module_user (m : oscap_module) : option string :=
  match m with
  | OVAL_REPORT => Some "oval-results-report.xsl"%string
  | _ => None
  end.

(** The [.help] of a module. *)
Definition module_help (m : oscap_module) : option string :=
  match m with
  | OVAL_VALIDATE =>
      Some ("Options:" ++ nl
            ++ "   --syschar" ++ cr ++ tab ++ tab ++ tab ++ tab
            ++ " - Valiadate OVAL system characteristics" ++ nl
            ++ "   --definitions" ++ cr ++ tab ++ tab ++ tab ++ tab
            ++ " - Valiadate OVAL definitions" ++ nl
            ++ "   --results" ++ cr ++ tab ++ tab ++ tab ++ tab
            ++ " - Valiadate OVAL results" ++ nl
            ++ "   --file-version <version>" ++ cr ++ tab ++ tab ++ tab ++ tab
            ++ " - Use schema for given version of OVAL")%string
  | OVAL_EVAL =>
      Some ("Options:" ++ nl
            ++ "   --id <definition-id>" ++ cr ++ tab ++ tab ++ tab ++ tab
            ++ " - ID of the definition we want to evaluate." ++ nl
            ++ "   --result-file <file>" ++ cr ++ tab ++ tab ++ tab ++ tab
            ++ " - Write OVAL Results into file." ++ nl
            ++ "   --report-file <file>" ++ cr ++ tab ++ tab ++ tab ++ tab
            ++ " - Write results HTML report into file." ++ nl
            ++ "   --skip-valid" ++ cr ++ tab ++ tab ++ tab ++ tab
            ++ " - Skip validation." ++ nl)%string
  | OVAL_ANALYSE =>
      Some ("Options:" ++ nl
            ++ "   --result-file <file>" ++ cr ++ tab ++ tab ++ tab ++ tab
            ++ " - Write OVAL Results into file." ++ nl)%string
  | OVAL_REPORT =>
      Some ("Options:" ++ nl
            ++ "   --output <file>" ++ cr ++ tab ++ tab ++ tab ++ tab
            ++ " - Write the HTML into file.")%string
  | OVAL_COLLECT | OVAL_GENERATE => None
  end.

(** [app_oval_xslt].  [app_xslt] is the tool's (oscap-tool, not part of
    the sources) and is a parameter; a failed [assert] aborts, which is
    [None] here. *)
Definition app_oval_xslt (app_xslt : string -> string -> option string -> Z)
    (action : oscap_action) : option Z :=
  match module_user (module action) with
  | None => None
  | Some user => Some (app_xslt (f_oval action) user (f_results action))
  end.

(** ** The table of long options *)

(** What [getopt_long] does for an entry: return [val], or store through
    [flag] and return 0. *)
Inductive long_option_effect : Set :=
| Returns (val : Z)
| Stores (st : flag_store).

Record long_option : Set := {
  lo_name : string;
  lo_has_arg : bool;
  lo_effect : long_option_effect
}.

(** [long_options], without the terminating entry. *)
Definition long_options : list long_option :=
  [ {| lo_name := "result-file"; lo_has_arg := true;
       lo_effect := Returns OVAL_OPT_RESULT_FILE |};
    {| lo_name := "report-file"; lo_has_arg := true;
       lo_effect := Returns OVAL_OPT_REPORT_FILE |};
    {| lo_name := "id"; lo_has_arg := true;
       lo_effect := Returns OVAL_OPT_ID |};
    {| lo_name := "version"; lo_has_arg := true;
       lo_effect := Returns OVAL_OPT_FILE_VERSION |};
    {| lo_name := "output"; lo_has_arg := true;
       lo_effect := Returns OVAL_OPT_OUTPUT |};
    {| lo_name := "definitions"; lo_has_arg := false;
       lo_effect := Stores (StoreDoctype OSCAP_DOCUMENT_OVAL_DEFINITIONS) |};
    {| lo_name := "syschar"; lo_has_arg := false;
       lo_effect := Stores (StoreDoctype OSCAP_DOCUMENT_OVAL_SYSCHAR) |};
    {| lo_name := "results"; lo_has_arg := false;
       lo_effect := Stores (StoreDoctype OSCAP_DOCUMENT_OVAL_RESULTS) |};
    {| lo_name := "skip-valid"; lo_has_arg := false;
       lo_effect := Stores (StoreValidate 0) |} ].

(** The return [getopt_long] makes when it matches an entry, with the
    argument it found for it. *)
Definition return_of (o : long_option) (arg : string) : getopt_return :=
  match lo_effect o with
  | Returns val =>
      {| getopt_c := val;
         getopt_optarg := if lo_has_arg o then Some arg else None;
         getopt_stored := None |}
  | Stores st =>
      {| getopt_c := 0; getopt_optarg := None; getopt_stored := Some st |}
  end.

(** A return made for an entry of the table. *)
Definition from_table (r : getopt_return) : Prop :=
  exists o arg, In o long_options /\ r = return_of o arg.

(** The values the [switch] of the parser has a [case] for. *)
Definition handled (c : Z) : bool :=
  (c =? OVAL_OPT_RESULT_FILE) || (c =? OVAL_OPT_REPORT_FILE) ||
  (c =? OVAL_OPT_OUTPUT) || (c =? OVAL_OPT_ID) ||
  (c =? OVAL_OPT_FILE_VERSION) || (c =? 0).

(** The effect of one accepted return on the action; the loop of the
    parser is proved to fold it over the returns. *)
Definition apply_return (a : oscap_action) (r : getopt_return) : oscap_action :=
  let c := getopt_c r in
  let a := store (getopt_stored r) a in
  if c =? OVAL_OPT_RESULT_FILE then set_f_results a (getopt_optarg r)
  else if c =? OVAL_OPT_REPORT_FILE then set_f_report a (getopt_optarg r)
  else if c =? OVAL_OPT_OUTPUT then set_f_results a (getopt_optarg r)
  else if c =? OVAL_OPT_ID then set_id a (getopt_optarg r)
  else if c =? OVAL_OPT_FILE_VERSION then set_file_version a (getopt_optarg r)
  else a.

Definition sets_results (r : getopt_return) : bool :=
  (getopt_c r =? OVAL_OPT_RESULT_FILE) || (getopt_c r =? OVAL_OPT_OUTPUT).

(** ** Further observations *)

Definition is_some {A} (o : option A) : bool :=
  match o with Some _ => true | None => false end.

Definition is_xslt (e : event) : bool :=
  match e with Xslt _ _ _ => true | _ => false end.

Definition is_printed (e : event) : bool :=
  match e with Stdout _ | Stderr _ | ModuleUsage _ _ => true | _ => false end.

Definition is_evaluation (e : event) : bool :=
  match e with AgentEvalDefinition _ _ | AgentEvalSystem _ => true | _ => false end.

Definition is_probe (e : event) : bool :=
  match e with
  | ProbeSessionNew | ProbeQuerySysinfo _ | ProbeQueryObjects _ => true
  | _ => false
  end.

(** How many definitions have a given verdict. *)
Definition verdict_count (env : environment) (defs : list string) (c : Z) : Z :=
  Z.of_nat (List.length (filter (fun d => agent_definition_result env d =? c) defs)).

(** The error pending once the evaluation call of the evaluate workflow
    has returned (validation, import, session, evaluation, in order). *)
Definition pending_after_evaluation `{oval_headers} (env : environment)
    (action : oscap_action) (m : oval_definition_model) : option oscap_error :=
  let f := f_oval action in
  orelse (match id action with
          | Some i => raised (agent_eval_definition env i)
          | None => raised (agent_eval_system env)
          end)
    (orelse (raised (agent_new_session env m (basename f)))
       (orelse (raised (definition_model_import env f))
          (if negb (validate action =? 0) then raised (validate_document env f) else None))).

(** An environment whose collaborators answer as [fair_weather] except
    for the session, which cannot be created. *)
Definition no_session : environment :=
  {| validate_document := fun _ => quiet true;
     definition_model_import := fun _ => quiet (Some {| definitions := three |});
     agent_new_session := fun _ _ =>
       {| value := false;
          raised := Some {| err_code := 2; err_desc := "no agent" |} |};
     agent_eval_definition := fun i => quiet (mixed i);
     agent_definition_result := mixed;
     agent_eval_system := quiet 0;
     probe_query_sysinfo := quiet 0;
     probe_query_objects := quiet 0;
     syschar_model_import := fun _ => quiet 0;
     results_model_eval := quiet 0 |}.

(** A characteristics file that cannot be imported. *)
Definition bad_syschar : environment :=
  {| validate_document := fun _ => quiet true;
     definition_model_import := fun _ => quiet (Some {| definitions := three |});
     agent_new_session := fun _ _ => quiet true;
     agent_eval_definition := fun i => quiet (mixed i);
     agent_definition_result := mixed;
     agent_eval_system := quiet 0;
     probe_query_sysinfo := quiet 0;
     probe_query_objects := quiet 0;
     syschar_model_import := fun _ =>
       {| value := -1;
          raised := Some {| err_code := 3; err_desc := "parse error" |} |};
     results_model_eval := quiet 0 |}.

(** A probe whose sysinfo query fails. *)
Definition no_probe : environment :=
  {| validate_document := fun _ => quiet true;
     definition_model_import := fun _ => quiet (Some {| definitions := three |});
     agent_new_session := fun _ _ => quiet true;
     agent_eval_definition := fun i => quiet (mixed i);
     agent_definition_result := mixed;
     agent_eval_system := quiet 0;
     probe_query_sysinfo := quiet 1;
     probe_query_objects := quiet 0;
     syschar_model_import := fun _ => quiet 0;
     results_model_eval := quiet 0 |}.

Definition set_module (a : oscap_action) (m : oscap_module) : oscap_action :=
  {| module := m; verbosity := verbosity a; validate := validate a;
     doctype := doctype a; f_oval := f_oval a; f_syschar := f_syschar a;
     f_results := f_results a; f_report := f_report a; id := id a;
     file_version := file_version a; url_oval := url_oval a;
     url_syschar := url_syschar a |}.

(** A scan of [--result-file a.xml --output b.xml], and its command
    line; the options come first, so the scan leaves the vector as it
    is. *)
Definition two_outputs : list getopt_return :=
  [ {| getopt_c := OVAL_OPT_RESULT_FILE; getopt_optarg := Some "a.xml"%string;
       getopt_stored := None |};
    {| getopt_c := OVAL_OPT_OUTPUT; getopt_optarg := Some "b.xml"%string;
       getopt_stored := None |} ].

Definition eval_two_outputs : list string :=
  ["oscap"; "oval"; "eval"; "--result-file"; "a.xml"; "--output"; "b.xml";
   "defs.xml"]%string.

Definition two_outputs_scan (rs : list getopt_return) : getopt_scan :=
  {| getopt_returns := rs; optind := 7; getopt_argv := eval_two_outputs |}.

(** [eval defs.xml --id x]: the option follows the definitions file, and
    the scan moves it in front. *)
Definition eval_id_last : list string :=
  ["oscap"; "oval"; "eval"; "defs.xml"; "--id"; "x"]%string.

Definition eval_id_last_scan : getopt_scan :=
  {| getopt_returns :=
       [ {| getopt_c := OVAL_OPT_ID; getopt_optarg := Some "x"%string;
            getopt_stored := None |} ];
     optind := 5;
     getopt_argv := ["oscap"; "oval"; "eval"; "--id"; "x"; "defs.xml"]%string |}.

(** [analyse defs.xml sc.xml --result-file r.xml], scanned. *)
Definition analyse_option_last : list string :=
  ["oscap"; "oval"; "analyse"; "defs.xml"; "sc.xml"; "--result-file"; "r.xml"]%string.

Definition analyse_option_last_scan : getopt_scan :=
  {| getopt_returns :=
       [ {| getopt_c := OVAL_OPT_RESULT_FILE; getopt_optarg := Some "r.xml"%string;
            getopt_stored := None |} ];
     optind := 5;
     getopt_argv :=
       ["oscap"; "oval"; "analyse"; "--result-file"; "r.xml"; "defs.xml";
        "sc.xml"]%string |}.

(** The resources a trace acquired, in order. *)
Definition acquired (tr : list event) : list resource :=
  flat_map (fun e => match acquires e with Some r => [r] | None => [] end) tr.

(** * Properties *)

(** ** Tactics: running a handler symbolically *)

Ltac exec :=
  unfold run, bind, when, call, emit, ret, return_, printf, eprintf,
    oscap_err, oscap_err_desc, oscap_err_code, initial; simpl.

Ltac flat := repeat rewrite <- app_assoc; simpl.

(** Case analysis on the innermost scrutinee the goal is stuck on. *)
Ltac destruct_inner x :=
  lazymatch x with
  | context [match ?y with _ => _ end] => destruct_inner y
  | _ => destruct x eqn:?
  end.

Ltac step :=
  match goal with
  | |- context [match ?x with _ => _ end] => destruct_inner x
  end.

#[local] Arguments String.append : simpl never.
#[local] Arguments oval_agent_eval_system : simpl never.

Ltac split_if :=
  match goal with
  | |- context [if ?b then _ else _] => destruct b eqn:?
  end.

(** ** The collect workflow *)

Lemma collect_run (env : environment) (action : oscap_action) :
  run (app_collect_oval env action) =
  let def_model := value (definition_model_import env (f_oval action)) in
  let si := value (probe_query_sysinfo env) in
  let ob := value (probe_query_objects env) in
  let start := [DefinitionModelImport (f_oval action) def_model;
                SyscharModelNew def_model; ProbeSessionNew; ProbeQuerySysinfo si] in
  let stop := [ProbeSessionDestroy; SyscharModelFree; DefinitionModelFree def_model] in
  if negb (si =? 0) then (OSCAP_ERROR, start ++ stop)
  else if negb (ob =? 0)
  then (OSCAP_ERROR,
        start ++ [SyscharModelSetSysinfo; SysinfoFree; ProbeQueryObjects ob] ++ stop)
  else (OSCAP_OK,
        start ++ [SyscharModelSetSysinfo; SysinfoFree; ProbeQueryObjects ob;
                  SyscharModelExport "/dev/stdout"] ++ stop).
Proof.
  unfold app_collect_oval, oval_definition_model_import, oval_syschar_model_new,
    oval_probe_session_new, oval_probe_query_sysinfo, oval_probe_query_objects,
    oval_definition_model_free.
  exec.
  destruct (value (probe_query_sysinfo env) =? 0); simpl; [|reflexivity].
  destruct (value (probe_query_objects env) =? 0); reflexivity.
Qed.

(** C3: the collect workflow never exports a results model; it exports
    the system characteristics, to /dev/stdout and nowhere else, exactly
    when the sysinfo query and the object query both return 0; when one
    of them fails it returns OSCAP_ERROR and exports nothing. *)
Theorem collect_exports (env : environment) (action : oscap_action) :
  let rc := fst (run (app_collect_oval env action)) in
  let tr := snd (run (app_collect_oval env action)) in
  let both := value (probe_query_sysinfo env) = 0 /\ value (probe_query_objects env) = 0 in
  existsb is_results_export tr = false /\
  (In (SyscharModelExport "/dev/stdout") tr <-> both) /\
  (forall e, In e tr -> is_syschar_export e = true -> e = SyscharModelExport "/dev/stdout") /\
  (~ both -> rc = OSCAP_ERROR /\ existsb is_syschar_export tr = false).
Proof.
  rewrite collect_run; cbv zeta.
  destruct (Z.eqb_spec (value (probe_query_sysinfo env)) 0) as [Hs|Hs];
    [destruct (Z.eqb_spec (value (probe_query_objects env)) 0) as [Ho|Ho]|];
    simpl; (split; [reflexivity|]); (split; [|split]).
  - split; [tauto|]. intros _. do 7 right. left. reflexivity.
  - intros e He Hx. repeat (destruct He as [<-|He]; try discriminate Hx; try reflexivity).
    destruct He.
  - intros Hn. exfalso. apply Hn. split; assumption.
  - split; [|tauto]. intros He.
    repeat (destruct He as [He|He]; try discriminate He). destruct He.
  - intros e He Hx. repeat (destruct He as [<-|He]; try discriminate Hx). destruct He.
  - intros _. split; reflexivity.
  - split; [|tauto]. intros He.
    repeat (destruct He as [He|He]; try discriminate He). destruct He.
  - intros e He Hx. repeat (destruct He as [<-|He]; try discriminate Hx). destruct He.
  - intros _. split; reflexivity.
Qed.

(** C9: when the import yields no definition model, the collect workflow
    goes on to build the system-characteristics model and the probe
    session over the null model; it prints nothing, and returns OSCAP_OK
    with an export if the probe queries succeed.  The analyse and the
    evaluate workflows stop at the same point with a message on stderr
    and OSCAP_ERROR. *)
Theorem collect_unchecked_import `{oval_headers} (env : environment) (VERBOSE : Z)
    (action : oscap_action) :
  value (definition_model_import env (f_oval action)) = None ->
  let rc := fst (run (app_collect_oval env action)) in
  let tr := snd (run (app_collect_oval env action)) in
  let failed :=
    (OSCAP_ERROR,
     [DefinitionModelImport (f_oval action) None;
      Stderr ("Failed to import the definition model (" ++ f_oval action ++ ")." ++ nl)]) in
  firstn 3 tr = [DefinitionModelImport (f_oval action) None;
                 SyscharModelNew None; ProbeSessionNew] /\
  existsb is_stderr tr = false /\
  stdout_of tr = [] /\
  (value (probe_query_sysinfo env) = 0 -> value (probe_query_objects env) = 0 ->
   rc = OSCAP_OK /\ In (SyscharModelExport "/dev/stdout") tr) /\
  run (app_analyse_oval env action) = failed /\
  (validate action = 0 -> run (app_evaluate_oval env VERBOSE action) = failed).
Proof.
  intros Himp. rewrite collect_run; cbv zeta. rewrite Himp.
  split; [|split; [|split; [|split; [|split]]]].
  - repeat split_if; reflexivity.
  - repeat split_if; reflexivity.
  - repeat split_if; reflexivity.
  - intros Hs Ho. rewrite Hs, Ho. simpl. split; [reflexivity|tauto].
  - unfold app_analyse_oval, oval_definition_model_import. exec.
    rewrite Himp. reflexivity.
  - intros Hv. unfold app_evaluate_oval, oval_definition_model_import. exec.
    rewrite Hv. simpl. rewrite Himp. reflexivity.
Qed.

Lemma collect_unchecked_import_witness :
  value (definition_model_import no_model "defs.xml") = None /\
  fst (run (app_collect_oval no_model (analyse_action None))) = OSCAP_OK.
Proof.
  split; [reflexivity|].
  apply (collect_unchecked_import (H:=libopenscap) no_model 0 (analyse_action None));
    reflexivity.
Defined.

(** ** The analyse workflow *)

Lemma analyse_run `{oval_headers} (env : environment) (action : oscap_action) :
  run (app_analyse_oval env action) =
  let di := definition_model_import env (f_oval action) in
  let si := syschar_model_import env (f_syschar action) in
  match value di with
  | None =>
      (OSCAP_ERROR,
       [DefinitionModelImport (f_oval action) None;
        Stderr ("Failed to import the definition model (" ++ f_oval action ++ ")." ++ nl)])
  | Some m =>
      let start := [DefinitionModelImport (f_oval action) (Some m);
                    SyscharModelNew (Some m);
                    SyscharModelImport (f_syschar action) (value si)] in
      if value si =? -1
      then (OSCAP_ERROR,
            start ++
            [Stderr ("Failed to import the system characteristics model ("
                     ++ f_syschar action ++ ")." ++ nl)] ++
            match orelse (raised si) (raised di) with
            | Some e => [Stderr ("ERROR: " ++ err_desc e ++ nl)]
            | None => []
            end ++
            [DefinitionModelFree (Some m)])
      else (OSCAP_OK,
            start ++ [ResultsModelNew; ResultsModelEval] ++
            match f_results action with
            | Some results =>
                [ResultDirectivesNew; ResultsModelExport all_results_full results;
                 ResultDirectivesFree]
            | None => []
            end)
  end.
Proof.
  unfold app_analyse_oval, oval_definition_model_import, oval_syschar_model_new,
    oval_syschar_model_import, oval_results_model_eval, export_results,
    oval_definition_model_free.
  exec.
  destruct (value (definition_model_import env (f_oval action))); [|reflexivity].
  simpl.
  destruct (value (syschar_model_import env (f_syschar action)) =? -1); simpl.
  - unfold orelse.
    destruct (raised (syschar_model_import env (f_syschar action)));
      [reflexivity|].
    destruct (raised (definition_model_import env (f_oval action))); reflexivity.
  - destruct (f_results action); reflexivity.
Qed.

(** C6: when the definition model and the system-characteristics model
    are both imported, the analyse workflow returns OSCAP_OK, whatever
    the environment says about verdicts. *)
Theorem analyse_succeeds `{oval_headers} (env : environment) (action : oscap_action)
    (m : oval_definition_model) :
  value (definition_model_import env (f_oval action)) = Some m ->
  value (syschar_model_import env (f_syschar action)) <> -1 ->
  fst (run (app_analyse_oval env action)) = OSCAP_OK.
Proof.
  intros Hd Hs. rewrite analyse_run; cbv zeta. rewrite Hd.
  destruct (Z.eqb_spec (value (syschar_model_import env (f_syschar action))) (-1));
    [contradiction|reflexivity].
Qed.

Lemma analyse_succeeds_witness :
  fst (run (app_analyse_oval (H:=libopenscap)
              (fair_weather ten (fun _ => 2)) (analyse_action (Some "out.xml"%string))))
  = OSCAP_OK.
Proof.
  apply (analyse_succeeds (H:=libopenscap) (fair_weather ten (fun _ => 2))
           (analyse_action (Some "out.xml"%string)) {| definitions := ten |}).
  - reflexivity.
  - simpl. lia.
Defined.

(** C10: the answer of [oval_results_model_eval] has no effect on the
    analyse workflow.  Once both imports succeed the run is the same for
    every answer: the evaluation call is followed by the export, if one
    was asked for, nothing is printed on stderr and OSCAP_OK is
    returned. *)
Theorem analyse_ignores_eval `{oval_headers} (env : environment)
    (action : oscap_action) (m : oval_definition_model) (r : reply Z) :
  value (definition_model_import env (f_oval action)) = Some m ->
  value (syschar_model_import env (f_syschar action)) <> -1 ->
  let out := run (app_analyse_oval (with_results_model_eval env r) action) in
  out = run (app_analyse_oval env action) /\
  fst out = OSCAP_OK /\
  existsb is_stderr (snd out) = false /\
  exists before, snd out =
    before ++ [ResultsModelEval] ++
    match f_results action with
    | Some results =>
        [ResultDirectivesNew; ResultsModelExport all_results_full results;
         ResultDirectivesFree]
    | None => []
    end.
Proof.
  intros Hd Hs. cbv zeta. rewrite !analyse_run; cbv zeta. simpl.
  rewrite Hd.
  destruct (Z.eqb_spec (value (syschar_model_import env (f_syschar action))) (-1));
    [contradiction|].
  repeat split.
  - simpl. destruct (f_results action); reflexivity.
  - eexists [_; _; _; _]. reflexivity.
Qed.

Lemma analyse_ignores_eval_witness :
  run (app_analyse_oval (H:=libopenscap)
         (with_results_model_eval (fair_weather ten (fun _ => 2))
            {| value := -1; raised := Some {| err_code := 1; err_desc := "fault" |} |})
         (analyse_action None))
  = run (app_analyse_oval (H:=libopenscap) (fair_weather ten (fun _ => 2))
           (analyse_action None)).
Proof.
  apply (analyse_ignores_eval (H:=libopenscap) (fair_weather ten (fun _ => 2))
           (analyse_action None) {| definitions := ten |}).
  - reflexivity.
  - simpl. lia.
Defined.

(** ** The callback and the batch *)

Section Batch.

Context `{oval_headers}.
Variable env : environment.
Variable VERBOSE : Z.

Lemma report_definitions_run {R} (defs : list string) :
  forall (u : oval_usr) (s : state),
  report_definitions (R:=R) env (app_oval_callback VERBOSE) defs u s =
  (inl (tallies env defs u),
   {| pending := pending s; trace := trace s ++ callback_lines env VERBOSE defs |}).
Proof.
  unfold callback_lines.
  induction defs as [|d rest IH]; intros u s; simpl.
  - unfold ret. destruct s, (VERBOSE >=? 0); simpl; rewrite app_nil_r; reflexivity.
  - unfold bind at 1. unfold app_oval_callback at 1. exec.
    destruct (VERBOSE >=? 0); simpl; rewrite IH; simpl.
    + rewrite <- app_assoc. reflexivity.
    + reflexivity.
Qed.

Lemma eval_system_run {R} (sess : oval_agent_session) (u : oval_usr) (s : state) :
  oval_agent_eval_system (R:=R) env sess (app_oval_callback VERBOSE) u s =
  (inl (value (agent_eval_system env), tallies env (definitions (sess_model sess)) u),
   {| pending := orelse (raised (agent_eval_system env)) (pending s);
      trace := trace s ++ callback_lines env VERBOSE (definitions (sess_model sess))
               ++ [AgentEvalSystem (value (agent_eval_system env))] |}).
Proof.
  unfold oval_agent_eval_system, bind. rewrite report_definitions_run.
  exec. rewrite <- app_assoc. reflexivity.
Qed.

End Batch.

Section Aggregator.

Context `{oval_headers}.

Lemma only_incremented_nth (i : nat) (u u' : oval_usr) :
  (i < 6)%nat ->
  (forall j, (j < 6)%nat ->
     nth j (counters u') 0 = nth j (counters u) 0 + (if Nat.eqb j i then 1 else 0)) ->
  only_incremented i u u'.
Proof.
  intros Hi Hj j. destruct (Nat.lt_ge_cases j 6) as [Hlt|Hge]; [auto|].
  rewrite !nth_overflow by exact Hge.
  destruct (Nat.eqb_spec j i); [lia|reflexivity].
Qed.

Lemma tally_counts (n : Z) (u : oval_usr) :
  in_range u ->
  if is_result n
  then exists i, (i < 6)%nat /\ only_incremented i u (tally n u)
  else tally n u = u.
Proof.
  intros Hr. unfold in_range, counters in Hr.
  repeat match goal with
         | Hf : Forall _ (_ :: _) |- _ => inversion Hf; clear Hf; subst
         end.
  unfold is_result, oval_results, tally. simpl.
  assert (Hincr : forall x, 0 <= x < INT_MAX -> int_incr x = x + 1).
  { intros x Hx. unfold int_incr. destruct (Z.eqb_spec x INT_MAX); [lia|reflexivity]. }
  destruct (n =? OVAL_RESULT_TRUE); simpl.
  { exists 0%nat. split; [lia|]. apply only_incremented_nth; [lia|].
    intros [|[|[|[|[|[|j]]]]]] Hj; simpl; rewrite ?Hincr by assumption; lia. }
  destruct (n =? OVAL_RESULT_FALSE); simpl.
  { exists 1%nat. split; [lia|]. apply only_incremented_nth; [lia|].
    intros [|[|[|[|[|[|j]]]]]] Hj; simpl; rewrite ?Hincr by assumption; lia. }
  destruct (n =? OVAL_RESULT_ERROR); simpl.
  { exists 2%nat. split; [lia|]. apply only_incremented_nth; [lia|].
    intros [|[|[|[|[|[|j]]]]]] Hj; simpl; rewrite ?Hincr by assumption; lia. }
  destruct (n =? OVAL_RESULT_UNKNOWN); simpl.
  { exists 3%nat. split; [lia|]. apply only_incremented_nth; [lia|].
    intros [|[|[|[|[|[|j]]]]]] Hj; simpl; rewrite ?Hincr by assumption; lia. }
  destruct (n =? OVAL_RESULT_NOT_EVALUATED); simpl.
  { exists 4%nat. split; [lia|]. apply only_incremented_nth; [lia|].
    intros [|[|[|[|[|[|j]]]]]] Hj; simpl; rewrite ?Hincr by assumption; lia. }
  destruct (n =? OVAL_RESULT_NOT_APPLICABLE); simpl.
  { exists 5%nat. split; [lia|]. apply only_incremented_nth; [lia|].
    intros [|[|[|[|[|[|j]]]]]] Hj; simpl; rewrite ?Hincr by assumption; lia. }
  reflexivity.
Qed.

Lemma tally_total (n : Z) (u : oval_usr) :
  Forall (fun x => 0 <= x) (counters u) ->
  usr_total u < INT_MAX ->
  usr_total (tally n u) = usr_total u + (if is_result n then 1 else 0) /\
  Forall (fun x => 0 <= x) (counters (tally n u)).
Proof.
  intros Hr Ht. destruct u as [f t e k ne na].
  unfold counters in Hr. simpl in Hr.
  repeat match goal with
         | Hf : Forall _ (_ :: _) |- _ => inversion Hf; clear Hf; subst
         end.
  unfold usr_total, counters in *. simpl in Ht.
  assert (Hincr : forall x, 0 <= x < INT_MAX -> int_incr x = x + 1).
  { intros x Hx. unfold int_incr. destruct (Z.eqb_spec x INT_MAX); [lia|reflexivity]. }
  unfold is_result, oval_results, tally. simpl.
  repeat match goal with
         | |- context [n =? ?c] => destruct (n =? c); simpl
         end;
    rewrite ?Hincr by lia;
    (split; [lia | repeat constructor; lia]).
Qed.

Lemma tallies_total (env : environment) (defs : list string) :
  forall u : oval_usr,
  Forall (fun x => 0 <= x) (counters u) ->
  usr_total u + Z.of_nat (List.length defs) <= INT_MAX ->
  usr_total (tallies env defs u) =
  usr_total u +
  Z.of_nat (List.length (filter (fun d => is_result (agent_definition_result env d)) defs)).
Proof.
  induction defs as [|d rest IH]; intros u Hr Ht.
  - simpl. lia.
  - cbn [tallies fold_left List.length filter] in *.
    destruct (tally_total (agent_definition_result env d) u Hr) as [Hsum Hpos]; [lia|].
    fold (tallies env rest (tally (agent_definition_result env d) u)).
    rewrite IH; [|assumption|].
    + rewrite Hsum.
      destruct (is_result (agent_definition_result env d)); cbn [List.length]; lia.
    + rewrite Hsum.
      destruct (is_result (agent_definition_result env d)); lia.
Qed.

Lemma filter_all {A} (f : A -> bool) (l : list A) :
  Forall (fun x => f x = true) l -> filter f l = l.
Proof.
  induction 1 as [|x l Hx _ IH]; simpl; [reflexivity|].
  rewrite Hx, IH. reflexivity.
Qed.

End Aggregator.

(** Whatever the verdicts are: a callback invocation increments exactly
    one counter when the verdict of its message is one of the six
    enumerators and goes through the [default] branch, leaving the
    aggregator as it is, otherwise; after a batch the six counters add
    up to the number of definitions whose verdict is one of the six. *)
Lemma batch_counts_any_verdict `{oval_headers} (env : environment) (VERBOSE : Z)
    (sess : oval_agent_session) (s : state) :
  let defs := definitions (sess_model sess) in
  let verdict := agent_definition_result env in
  Z.of_nat (List.length defs) <= INT_MAX ->
  (forall (msg : oscap_reporter_message) (u : oval_usr) (s0 : state),
     in_range u ->
     exists u', fst (app_oval_callback (R:=oscap_exitcode) VERBOSE msg u s0) = inl (0, u') /\
       if is_result (user2num msg)
       then exists i, (i < 6)%nat /\ only_incremented i u u'
       else u' = u) /\
  exists u s',
    oval_agent_eval_system (R:=oscap_exitcode) env sess (app_oval_callback VERBOSE)
      usr_zero s = (inl (value (agent_eval_system env), u), s') /\
    usr_total u = Z.of_nat (List.length (filter (fun d => is_result (verdict d)) defs)) /\
    (Forall (fun d => is_result (verdict d) = true) defs ->
     usr_total u = Z.of_nat (List.length defs)).
Proof.
  intros defs verdict Hlen. subst defs verdict. split.
  - intros msg u s0 Hu. exists (tally (user2num msg) u). split.
    + unfold app_oval_callback. exec. destruct (VERBOSE >=? 0); reflexivity.
    + apply tally_counts. exact Hu.
  - rewrite eval_system_run. eexists. eexists. split; [reflexivity|].
    assert (Hsum : usr_total (tallies env (definitions (sess_model sess)) usr_zero) =
                   Z.of_nat (List.length
                     (filter (fun d => is_result (agent_definition_result env d))
                        (definitions (sess_model sess))))).
    { rewrite tallies_total.
      - reflexivity.
      - repeat constructor; simpl; lia.
      - change (usr_total usr_zero) with 0. lia. }
    split; [exact Hsum|].
    intros Hall. rewrite Hsum, filter_all by exact Hall. reflexivity.
Qed.






(** The [default] branch at work: a verdict that is none of the six
    enumerators (here 0) is reported to the callback and no counter
    moves. *)
Example unlisted_verdict_not_counted :
  fst (oval_agent_eval_system (R:=oscap_exitcode)
         (fair_weather ["d"%string] (fun _ => 0)) (session_of ["d"%string])
         (app_oval_callback (H:=libopenscap) 0) usr_zero initial)
  = inl (0, usr_zero).
Proof. reflexivity. Qed.

(** ** The evaluate workflow *)

Section Evaluate.

Context `{oval_headers}.
Variable env : environment.
Variable VERBOSE : Z.
Variable action : oscap_action.

Lemma evaluate_run :
  run (app_evaluate_oval env VERBOSE action) = evaluate_outcome env VERBOSE action.
Proof.
  unfold evaluate_outcome, app_evaluate_oval, export_events.
  unfold oscap_validate_document, oval_definition_model_import,
    oval_agent_new_session, oval_definition_model_free, evaluation,
    oval_agent_eval_definition, return_code, print_report, export_results,
    oval_gen_report, report_lines, error_line.
  cbv zeta.
  exec. unfold orelse.
  repeat (first [rewrite eval_system_run | step]; simpl; unfold orelse; try discriminate);
    flat; try reflexivity; try congruence.
Qed.

End Evaluate.

Lemma callback_lines_stdout `{oval_headers} (env : environment) (VERBOSE : Z)
    (f : event -> bool) (defs : list string) :
  (forall s, f (Stdout s) = false) ->
  existsb f (callback_lines env VERBOSE defs) = false.
Proof.
  intros Hf. unfold callback_lines. destruct (VERBOSE >=? 0); [|reflexivity].
  induction defs as [|d rest IH]; simpl; [reflexivity|].
  rewrite Hf, IH. reflexivity.
Qed.



(** C4: with validation on and a document the validator rejects, the
    evaluate workflow stops right after the validation call.  With no
    error pending it prints INVALID_DOCUMENT_MSG on stdout and returns
    OSCAP_ERROR; with an error pending it prints the description of the
    error on stderr and returns OSCAP_FAIL, which is another status.  No
    model is imported or built in either case. *)
Theorem evaluate_validation `{oval_headers} (env : environment) (VERBOSE : Z)
    (action : oscap_action) :
  validate action <> 0 ->
  value (validate_document env (f_oval action)) = false ->
  let out := run (app_evaluate_oval env VERBOSE action) in
  let validation :=
    ValidateDocument (f_oval action) OSCAP_DOCUMENT_OVAL_DEFINITIONS
      (verbosity action >=? 0) in
  match raised (validate_document env (f_oval action)) with
  | None => out = (OSCAP_ERROR, [validation; Stdout (INVALID_DOCUMENT_MSG ++ nl)])
  | Some e => out = (OSCAP_FAIL, [validation; Stderr ("ERROR: " ++ err_desc e ++ nl)])
  end /\
  existsb is_model_construction (snd out) = false /\
  OSCAP_FAIL <> OSCAP_ERROR.
Proof.
  intros Hv Hinvalid. cbv zeta. rewrite evaluate_run. unfold evaluate_outcome.
  cbv zeta. rewrite Hinvalid.
  destruct (Z.eqb_spec (validate action) 0) as [|_]; [contradiction|]. simpl.
  destruct (raised (validate_document env (f_oval action))); simpl;
    repeat split; discriminate.
Qed.

Lemma evaluate_validation_witness :
  run (app_evaluate_oval (H:=libopenscap) (rejecting None) 0 (eval_action None None)) =
  (OSCAP_ERROR,
   [ValidateDocument "defs.xml" OSCAP_DOCUMENT_OVAL_DEFINITIONS true;
    Stdout ("invalid document" ++ nl)]).
Proof.
  destruct (evaluate_validation (H:=libopenscap) (rejecting None) 0
              (eval_action None None)) as [Hout _].
  - simpl. lia.
  - reflexivity.
  - exact Hout.
Defined.

(** *** Two runs that complete

    A single definition that evaluates to true, and a batch of two true
    and one false.  The batch releases everything it acquired; the run
    with --id returns without freeing the aggregator. *)

Example eval_single_true :
  let out := run (app_evaluate_oval (H:=libopenscap) (fair_weather three mixed) 0
                    (eval_action (Some "a"%string) None)) in
  fst out = OSCAP_OK /\
  stdout_of (snd out) = ["Definition a: true" ++ nl; "Evaluation done." ++ nl]%string /\
  leaked (snd out) = [Usr].
Proof.
  cbv zeta. repeat split; vm_compute; reflexivity.
Qed.

Example eval_batch_one_false :
  let out := run (app_evaluate_oval (H:=libopenscap) (fair_weather three mixed) 0
                    (eval_action None None)) in
  fst out = OSCAP_FAIL /\
  stdout_of (snd out) =
    ["Definition a: true" ++ nl; "Definition b: false" ++ nl;
     "Definition c: true" ++ nl; "Evaluation done." ++ nl;
     "===== REPORT =====" ++ nl;
     "TRUE:          " ++ cr ++ tab ++ tab ++ " 2" ++ nl;
     "FALSE:         " ++ cr ++ tab ++ tab ++ " 1" ++ nl;
     "ERROR:         " ++ cr ++ tab ++ tab ++ " 0" ++ nl;
     "UNKNOWN:       " ++ cr ++ tab ++ tab ++ " 0" ++ nl;
     "NOT EVALUATED: " ++ cr ++ tab ++ tab ++ " 0" ++ nl;
     "NOT APPLICABLE:" ++ cr ++ tab ++ tab ++ " 0" ++ nl]%string /\
  leaked (snd out) = [].
Proof.
  cbv zeta. repeat split; vm_compute; reflexivity.
Qed.

(** *** Error exits and resources *)

(** No exit of the evaluate workflow with OSCAP_ERROR is preceded by the
    release of anything. *)
Lemma evaluate_error_releases_nothing `{oval_headers} (env : environment)
    (VERBOSE : Z) (action : oscap_action) :
  let out := run (app_evaluate_oval env VERBOSE action) in
  fst out = OSCAP_ERROR -> existsb releasing (snd out) = false.
Proof.
  cbv zeta. rewrite evaluate_run. unfold evaluate_outcome. cbv zeta.
  repeat (step; simpl; try discriminate).
  all: intros _; repeat rewrite existsb_app;
    rewrite ?callback_lines_stdout by reflexivity; reflexivity.
Qed.

(** C5, the code at the failing input: on an evaluation fault the
    workflow prints the error and returns OSCAP_ERROR, and the session,
    the definition model and the aggregator are still held. *)
Theorem evaluate_fault_leaks :
  let out := run (app_evaluate_oval (H:=libopenscap) faulty_agent 0
                    (eval_action None None)) in
  fst out = OSCAP_ERROR /\
  stderr_of (snd out) = ["Error: (1) probe failed" ++ nl]%string /\
  existsb releasing (snd out) = false /\
  leaked (snd out) = [DefinitionModel; AgentSession; Usr].
Proof.
  cbv zeta. repeat split; vm_compute; reflexivity.
Qed.

(** ** The option parser *)

Lemma getopt_loop_cases (rs : list getopt_return) :
  forall (a : oscap_action) (s : state),
  (exists a', getopt_loop rs a s = (inl a', s) /\ module a' = module a) \/
  (exists p, getopt_loop rs a s =
     (inr p, {| pending := pending s;
                trace := trace s ++ [ModuleUsage (module a) None] |})
     /\ parsed_ok p = false).
Proof.
  induction rs as [|r rs IH]; intros a s; simpl.
  - left. exists a. split; reflexivity.
  - destruct (getopt_c r =? -1); [left; exists a; split; reflexivity|].
    assert (Hm : forall st, module (store st a) = module a).
    { intros [[v|v]|]; reflexivity. }
    repeat match goal with
           | |- context [if ?b then _ else _] => destruct b
           end;
      try match goal with
          | |- context [getopt_loop rs ?a1 s] =>
              destruct (IH a1 s) as [(a' & Hrun & Hmod)|(p & Hrun & Hp)];
                [left; exists a'; split; [exact Hrun|]
                |right; exists p; split; [|exact Hp]];
                simpl in *; rewrite ?Hm in *; assumption
          end.
    right. eexists. split; [|shelve]. unfold oscap_module_usage. exec.
    rewrite Hm. reflexivity.
    Unshelve. reflexivity.
Qed.

(** The second check of the parser cannot fire: when it is reached,
    [optind < argc], so [optind + 1 > argc] is false. *)
Lemma syschar_check_unreachable (argv : list string) (scan : getopt_scan)
    (action : oscap_action) :
  ~ In (ModuleUsage (module action)
          (Some "System characteristics file needs to be specified!"%string))
       (snd (run (getopt_oval argv scan action))).
Proof.
  unfold run, getopt_oval, bind at 1.
  destruct (getopt_loop_cases (getopt_returns scan)
              (set_doctype action OSCAP_DOCUMENT_OVAL_DEFINITIONS) initial)
    as [(a' & Hrun & Hmod)|(p & Hrun & Hp)]; rewrite Hrun; simpl.
  - unfold oscap_module_usage. exec.
    destruct (Z.geb_spec (optind scan) (argc argv)) as [Hge|Hlt]; simpl.
    + intros [Hin|[]]. discriminate Hin.
    + destruct (oscap_module_eqb (module a') OVAL_ANALYSE); simpl.
      * destruct (Z.gtb_spec (optind scan + 1) (argc argv)) as [Hgt|Hle]; simpl.
        -- lia.
        -- tauto.
      * tauto.
  - intros [Hin|[]]. discriminate Hin.
Qed.

(** C7, the code at the failing input: [analyse] with a definitions file
    and nothing after it.  The parser prints nothing and succeeds; the
    system-characteristics file is the NULL at [argv[argc]]. *)
Theorem getopt_analyse_one_file :
  let out := run (getopt_oval analyse_one_file
                    {| getopt_returns := []; optind := 3;
                       getopt_argv := analyse_one_file |} (analyse_action None)) in
  parsed_ok (fst out) = true /\
  url_oval (parsed_action (fst out)) = Some "defs.xml"%string /\
  url_syschar (parsed_action (fst out)) = None /\
  snd out = [].
Proof.
  cbv zeta. repeat split.
Qed.

(** ** The directives of an export *)

Lemma land_lor_r (a c : Z) : Z.land (a ||| c) c = c.
Proof.
  apply Z.bits_inj'. intros n _.
  rewrite Z.land_spec, Z.lor_spec.
  destruct (Z.testbit a n), (Z.testbit c n); reflexivity.
Qed.

Lemma land_lor_l (a b c : Z) : Z.land a c = c -> Z.land (a ||| b) c = c.
Proof.
  intros Ha. apply Z.bits_inj'. intros n _.
  rewrite Z.land_spec, Z.lor_spec.
  assert (Hn : Z.testbit (Z.land a c) n = Z.testbit c n) by (rewrite Ha; reflexivity).
  rewrite Z.land_spec in Hn.
  destruct (Z.testbit a n), (Z.testbit b n), (Z.testbit c n);
    simpl in *; congruence.
Qed.

Lemma land_self (c : Z) : Z.land c c = c.
Proof. apply Z.land_diag. Qed.

Lemma flag_has_covered (flag c : Z) : Z.land flag c = c -> c <> 0 -> flag_has flag c = true.
Proof.
  intros Hc Hnz. unfold flag_has. rewrite Hc.
  destruct (Z.eqb_spec c 0); [contradiction|reflexivity].
Qed.

Lemma all_results_full_entries `{oval_headers} (c : Z) :
  In c oval_results -> c <> 0 -> all_results_full c = full_entry.
Proof.
  intros Hin Hnz.
  unfold all_results_full, oval_result_directives_set_content,
    oval_result_directives_set_reported, oval_result_directives_new.
  assert (H1 : flag_has
                 (OVAL_RESULT_TRUE ||| OVAL_RESULT_FALSE ||| OVAL_RESULT_UNKNOWN |||
                  OVAL_RESULT_NOT_EVALUATED ||| OVAL_RESULT_ERROR |||
                  OVAL_RESULT_NOT_APPLICABLE) c = true).
  { apply flag_has_covered; [|exact Hnz].
    unfold oval_results in Hin. simpl in Hin.
    destruct Hin as [<-|[<-|[<-|[<-|[<-|[<-|[]]]]]]];
      repeat first [apply land_lor_r | apply land_self | apply land_lor_l]. }
  assert (H2 : flag_has
                 (OVAL_RESULT_TRUE ||| OVAL_RESULT_FALSE ||| OVAL_RESULT_UNKNOWN |||
                  OVAL_RESULT_NOT_EVALUATED ||| OVAL_RESULT_NOT_APPLICABLE |||
                  OVAL_RESULT_ERROR) c = true).
  { apply flag_has_covered; [|exact Hnz].
    unfold oval_results in Hin. simpl in Hin.
    destruct Hin as [<-|[<-|[<-|[<-|[<-|[<-|[]]]]]]];
      repeat first [apply land_lor_r | apply land_self | apply land_lor_l]. }
  rewrite H1, H2. reflexivity.
Qed.

Lemma callback_lines_forall `{oval_headers} (env : environment) (VERBOSE : Z)
    (P : event -> Prop) (defs : list string) :
  (forall s, P (Stdout s)) -> Forall P (callback_lines env VERBOSE defs).
Proof.
  intros HP. unfold callback_lines. destruct (VERBOSE >=? 0); [|constructor].
  induction defs; simpl; constructor; auto.
Qed.

Lemma evaluate_exports `{oval_headers} (env : environment) (VERBOSE : Z)
    (action : oscap_action) :
  Forall exports_all_full (snd (run (app_evaluate_oval env VERBOSE action))).
Proof.
  rewrite evaluate_run. unfold evaluate_outcome, export_events, report_lines. cbv zeta.
  repeat (step; simpl);
    repeat first [ apply Forall_nil
                 | apply Forall_cons; [first [exact I | reflexivity]|]
                 | apply Forall_app; split
                 | apply callback_lines_forall; intros; exact I ].
Qed.

Lemma analyse_exports `{oval_headers} (env : environment) (action : oscap_action) :
  Forall exports_all_full (snd (run (app_analyse_oval env action))).
Proof.
  rewrite analyse_run. cbv zeta.
  repeat (step; simpl); repeat constructor.
Qed.

(** C8: every export of a results model by the evaluate and the analyse
    workflows is given directives in which each of the six results is
    reported and has full content (the enumerators being flags, none of
    them is 0). *)
Theorem exports_report_everything `{oval_headers} (env : environment) (VERBOSE : Z)
    (action : oscap_action) (d : oval_result_directives) (file : string) :
  Forall (fun c => c <> 0) oval_results ->
  In (ResultsModelExport d file) (snd (run (app_evaluate_oval env VERBOSE action))) \/
  In (ResultsModelExport d file) (snd (run (app_analyse_oval env action))) ->
  forall c, In c oval_results ->
    reported (d c) = true /\ content (d c) = OVAL_DIRECTIVE_CONTENT_FULL.
Proof.
  intros Hnz Hin c Hc.
  assert (Hd : d = all_results_full).
  { destruct Hin as [Hin|Hin].
    - pose proof (evaluate_exports env VERBOSE action) as Hall.
      rewrite Forall_forall in Hall. exact (Hall _ Hin).
    - pose proof (analyse_exports env action) as Hall.
      rewrite Forall_forall in Hall. exact (Hall _ Hin). }
  subst d. rewrite Forall_forall in Hnz.
  rewrite all_results_full_entries by auto.
  split; reflexivity.
Qed.

Lemma exports_report_everything_witness :
  reported (all_results_full (H:=libopenscap) 2) = true /\
  content (all_results_full (H:=libopenscap) 2) = OVAL_DIRECTIVE_CONTENT_FULL.
Proof.
  apply (exports_report_everything (H:=libopenscap) (fair_weather three mixed) 0
           (eval_action None (Some "out.xml"%string))
           (all_results_full (H:=libopenscap)) "out.xml").
  - repeat constructor; discriminate.
  - left. rewrite evaluate_run. unfold evaluate_outcome. simpl.
    repeat first [left; reflexivity | right].
  - simpl. tauto.
Defined.

(** * Further properties of the handlers *)

(** ** Collect: status, order, resources *)

(** X1: the collect workflow releases what it acquired on every path:
    after either failed query and after the export, no model, session or
    sysinfo is still held. *)
Theorem collect_releases_everything (env : environment) (action : oscap_action) :
  leaked (snd (run (app_collect_oval env action))) = [].
Proof.
  rewrite collect_run; cbv zeta.
  destruct (value (definition_model_import env (f_oval action)));
    destruct (Z.eqb_spec (value (probe_query_sysinfo env)) 0) as [Hs|Hs];
    try rewrite Hs;
    try destruct (Z.eqb_spec (value (probe_query_objects env)) 0) as [Ho|Ho];
    simpl; unfold leaked; simpl;
    try (destruct (Z.eqb_spec (value (probe_query_sysinfo env)) 0); [contradiction|]);
    reflexivity.
Qed.

(** X2: the collect workflow returns OSCAP_OK exactly when both probe
    queries return 0 and OSCAP_ERROR otherwise (never OSCAP_FAIL); the
    handler itself prints nothing, on stdout or stderr, on any path. *)
Theorem collect_status (env : environment) (action : oscap_action) :
  let out := run (app_collect_oval env action) in
  let both := value (probe_query_sysinfo env) = 0 /\ value (probe_query_objects env) = 0 in
  (fst out = OSCAP_OK <-> both) /\
  (fst out = OSCAP_ERROR <-> ~ both) /\
  existsb is_printed (snd out) = false.
Proof.
  rewrite collect_run; cbv zeta.
  destruct (Z.eqb_spec (value (probe_query_sysinfo env)) 0) as [Hs|Hs];
    [destruct (Z.eqb_spec (value (probe_query_objects env)) 0) as [Ho|Ho]|];
    simpl; repeat split; try tauto; try discriminate; intros; tauto.
Qed.

(** X3: the object query is made exactly when the sysinfo query returned
    0, after the sysinfo was attached to the model; a failed sysinfo
    query ends the run with neither. *)
Theorem collect_queries_in_order (env : environment) (action : oscap_action) :
  let tr := snd (run (app_collect_oval env action)) in
  let si := value (probe_query_sysinfo env) in
  let ob := value (probe_query_objects env) in
  (In (ProbeQueryObjects ob) tr <-> si = 0) /\
  (In SyscharModelSetSysinfo tr <-> si = 0) /\
  (forall r, In (ProbeQueryObjects r) tr -> r = ob) /\
  (si = 0 ->
   exists before after,
     tr = before ++ [ProbeQuerySysinfo 0; SyscharModelSetSysinfo; SysinfoFree;
                     ProbeQueryObjects ob] ++ after).
Proof.
  rewrite collect_run; cbv zeta.
  destruct (Z.eqb_spec (value (probe_query_sysinfo env)) 0) as [Hs|Hs];
    [rewrite Hs;
     destruct (Z.eqb_spec (value (probe_query_objects env)) 0) as [Ho|Ho]|];
    simpl.
  - split; [|split; [|split]].
    + split; [reflexivity|]. intros _. do 6 right. left. reflexivity.
    + split; [reflexivity|]. intros _. do 4 right. left. reflexivity.
    + intros r Hr.
      repeat (destruct Hr as [Hr|Hr]; try discriminate Hr). 
      * injection Hr. auto.
      * destruct Hr.
    + intros _. eexists [_; _; _], _. reflexivity.
  - split; [|split; [|split]].
    + split; [reflexivity|]. intros _. do 6 right. left. reflexivity.
    + split; [reflexivity|]. intros _. do 4 right. left. reflexivity.
    + intros r Hr.
      repeat (destruct Hr as [Hr|Hr]; try discriminate Hr).
      * injection Hr. auto.
      * destruct Hr.
    + intros _. eexists [_; _; _], _. reflexivity.
  - split; [|split; [|split]].
    + split; [|contradiction]. intros Hr.
      repeat (destruct Hr as [Hr|Hr]; try discriminate Hr). destruct Hr.
    + split; [|contradiction]. intros Hr.
      repeat (destruct Hr as [Hr|Hr]; try discriminate Hr). destruct Hr.
    + intros r Hr.
      repeat (destruct Hr as [Hr|Hr]; try discriminate Hr). destruct Hr.
    + contradiction.
Qed.

(** ** Analyse: status, messages, resources *)

(** X4: the analyse workflow never frees the system-characteristics
    model or the results model, and frees the definition model only when
    the characteristics cannot be imported: a successful run ends holding
    all three, a failed characteristics import ends holding the
    characteristics model. *)
Theorem analyse_holds_models `{oval_headers} (env : environment) (action : oscap_action) :
  leaked (snd (run (app_analyse_oval env action))) =
  match value (definition_model_import env (f_oval action)) with
  | None => []
  | Some _ =>
      if value (syschar_model_import env (f_syschar action)) =? -1
      then [SyscharModel]
      else [DefinitionModel; SyscharModel; ResultsModel]
  end.
Proof.
  rewrite analyse_run; cbv zeta.
  destruct (value (definition_model_import env (f_oval action))); [|reflexivity].
  destruct (value (syschar_model_import env (f_syschar action)) =? -1).
  - destruct (orelse _ _); reflexivity.
  - destruct (f_results action); reflexivity.
Qed.

(** X5: the analyse workflow returns OSCAP_ERROR exactly when the
    definition import yields no model or the characteristics import
    returns -1, and OSCAP_OK otherwise; it exports the results exactly
    when it succeeds and a results file was given, and it never
    validates, probes, or renders a report. *)
Theorem analyse_status `{oval_headers} (env : environment) (action : oscap_action) :
  let out := run (app_analyse_oval env action) in
  let failed :=
    value (definition_model_import env (f_oval action)) = None \/
    value (syschar_model_import env (f_syschar action)) = -1 in
  (fst out = OSCAP_ERROR <-> failed) /\
  (fst out = OSCAP_OK <-> ~ failed) /\
  (existsb is_results_export (snd out) = true <->
   ~ failed /\ f_results action <> None) /\
  existsb (fun e => is_xslt e || is_probe e ||
                    match e with ValidateDocument _ _ _ => true | _ => false end)
    (snd out) = false.
Proof.
  rewrite analyse_run; cbv zeta.
  destruct (value (definition_model_import env (f_oval action))) as [m|].
  - destruct (Z.eqb_spec (value (syschar_model_import env (f_syschar action))) (-1))
      as [Hs|Hs].
    + simpl. destruct (orelse _ _); simpl;
        repeat split; try discriminate; try tauto;
        intros; try tauto; intuition discriminate.
    + destruct (f_results action); simpl;
        repeat split; try discriminate; try tauto;
        intros; try tauto; try (intuition discriminate); intuition congruence.
  - simpl. repeat split; try discriminate; try tauto; intros; try tauto;
      intuition discriminate.
Qed.

(** X6: when the characteristics cannot be imported, the analyse
    workflow writes the message naming the file on stderr, followed by
    the description of the pending error if there is one, frees the
    definition model, and exports nothing even if a results file was
    given. *)
Theorem analyse_syschar_failure `{oval_headers} (env : environment)
    (action : oscap_action) (m : oval_definition_model) :
  value (definition_model_import env (f_oval action)) = Some m ->
  value (syschar_model_import env (f_syschar action)) = -1 ->
  let out := run (app_analyse_oval env action) in
  fst out = OSCAP_ERROR /\
  stderr_of (snd out) =
    ("Failed to import the system characteristics model ("
       ++ f_syschar action ++ ")." ++ nl)%string ::
    match orelse (raised (syschar_model_import env (f_syschar action)))
            (raised (definition_model_import env (f_oval action))) with
    | Some e => [("ERROR: " ++ err_desc e ++ nl)%string]
    | None => []
    end /\
  stdout_of (snd out) = [] /\
  In (DefinitionModelFree (Some m)) (snd out) /\
  existsb is_results_export (snd out) = false.
Proof.
  intros Hd Hs. cbv zeta. rewrite analyse_run; cbv zeta. rewrite Hd, Hs. simpl.
  destruct (orelse _ _); simpl; repeat split; auto 10.
Qed.

Lemma analyse_syschar_failure_witness :
  stderr_of (snd (run (app_analyse_oval (H:=libopenscap) bad_syschar
                         (analyse_action (Some "out.xml"%string))))) =
  [("Failed to import the system characteristics model (syschar.xml)." ++ nl)%string;
   ("ERROR: parse error" ++ nl)%string].
Proof.
  apply (analyse_syschar_failure (H:=libopenscap) bad_syschar
           (analyse_action (Some "out.xml"%string)) {| definitions := three |});
    reflexivity.
Defined.

(** ** Evaluate: resources, output, exports *)

Lemma held_after_app (tr1 tr2 : list event) :
  forall h, held_after (tr1 ++ tr2) h = held_after tr2 (held_after tr1 h).
Proof.
  induction tr1 as [|e tr1 IH]; intros h; simpl; [reflexivity|].
  apply IH.
Qed.

Lemma held_after_callback_lines `{oval_headers} (env : environment) (VERBOSE : Z)
    (defs : list string) (h : list resource) :
  held_after (callback_lines env VERBOSE defs) h = h.
Proof.
  unfold callback_lines. destruct (VERBOSE >=? 0); [|reflexivity].
  induction defs as [|d rest IH]; simpl; [reflexivity|exact IH].
Qed.

Lemma held_after_cons (e : event) (tr : list event) (h : list resource) :
  held_after (e :: tr) h = held_after tr (held_after [e] h).
Proof. reflexivity. Qed.

Ltac peel_event :=
  match goal with
  | |- context [held_after (?e :: ?tr) ?h] =>
      lazymatch tr with
      | [] => fail
      | _ => rewrite (held_after_cons e tr h)
      end
  end.

(** X7: a run of the evaluate workflow that reaches the clean-up has
    released the session, the definition model and the directives; in
    batch mode it has freed the aggregator too, with --id the aggregator
    is the one thing still held. *)
Theorem evaluate_completed_resources `{oval_headers} (env : environment)
    (VERBOSE : Z) (action : oscap_action) :
  let out := run (app_evaluate_oval env VERBOSE action) in
  evaluation_completed (snd out) = true ->
  leaked (snd out) = match id action with Some _ => [Usr] | None => [] end.
Proof.
  cbv zeta. rewrite evaluate_run.
  unfold evaluate_outcome, evaluation_completed, export_events, report_lines.
  cbv zeta.
  remember leaked as held eqn:Hheld.
  repeat (step; simpl; try discriminate).
  all: intros Hc; repeat rewrite existsb_app in Hc;
    rewrite ?callback_lines_stdout in Hc by reflexivity;
    simpl in Hc; try discriminate.
  all: subst held; unfold leaked;
    repeat first [ rewrite held_after_app
                 | rewrite held_after_callback_lines
                 | peel_event ];
    reflexivity.
Qed.

Lemma evaluate_completed_resources_witness :
  leaked (snd (run (app_evaluate_oval (H:=libopenscap) (fair_weather three mixed) 0
                      (eval_action (Some "a"%string) (Some "out.xml"%string))))) = [Usr].
Proof.
  apply (evaluate_completed_resources (H:=libopenscap) (fair_weather three mixed) 0
           (eval_action (Some "a"%string) (Some "out.xml"%string))).
  reflexivity.
Defined.

(** X8: the results are exported exactly when the evaluation completed
    and a results file was given, and the report is rendered exactly
    when, in addition, a report file was given: a report file without a
    results file is ignored. *)
Theorem evaluate_exports_and_reports `{oval_headers} (env : environment)
    (VERBOSE : Z) (action : oscap_action) :
  let tr := snd (run (app_evaluate_oval env VERBOSE action)) in
  existsb is_results_export tr =
    evaluation_completed tr && is_some (f_results action) /\
  existsb is_xslt tr =
    evaluation_completed tr && is_some (f_results action) && is_some (f_report action).
Proof.
  cbv zeta. rewrite evaluate_run.
  unfold evaluate_outcome, evaluation_completed, export_events, report_lines.
  cbv zeta.
  repeat (step; simpl; try discriminate).
  all: repeat rewrite existsb_app;
    rewrite ?callback_lines_stdout by reflexivity;
    simpl; split; reflexivity.
Qed.

(** X9: with a negative VERBOSE the evaluate handler itself writes
    nothing on stdout, except the marker of an invalid document. *)
Theorem evaluate_quiet `{oval_headers} (env : environment)
    (VERBOSE : Z) (action : oscap_action) :
  VERBOSE < 0 ->
  let tr := snd (run (app_evaluate_oval env VERBOSE action)) in
  stdout_of tr = [] \/
  (stdout_of tr = [(INVALID_DOCUMENT_MSG ++ nl)%string] /\
   validate action <> 0 /\
   value (validate_document env (f_oval action)) = false).
Proof.
  intros HV. cbv zeta. rewrite evaluate_run.
  unfold evaluate_outcome, export_events, report_lines, callback_lines.
  cbv zeta.
  destruct (Z.geb_spec VERBOSE 0) as [|_]; [lia|].
  destruct (Z.eqb_spec (validate action) 0) as [Hv|Hv];
    destruct (value (validate_document env (f_oval action))) eqn:Hvalid;
    simpl.
  all: repeat (step; simpl; try discriminate).
  all: unfold stdout_of; repeat rewrite flat_map_app; simpl;
    first [left; reflexivity | right; repeat split; auto].
Qed.

Lemma evaluate_quiet_witness :
  stdout_of (snd (run (app_evaluate_oval (H:=libopenscap) (fair_weather three mixed) (-1)
                         (eval_action None None)))) = [].
Proof.
  destruct (evaluate_quiet (H:=libopenscap) (fair_weather three mixed) (-1)
              (eval_action None None)) as [Hq|[_ [_ Hv]]].
  - lia.
  - exact Hq.
  - discriminate Hv.
Defined.

(** X10: a validation that accepts the document and raises no error
    changes nothing but the trace: the run is the validation call
    followed by the run with validation skipped. *)
Theorem evaluate_validated_as_skipped `{oval_headers} (env : environment)
    (VERBOSE : Z) (action : oscap_action) :
  validate action <> 0 ->
  validate_document env (f_oval action) = {| value := true; raised := None |} ->
  let skipped := run (app_evaluate_oval env VERBOSE (set_validate action 0)) in
  run (app_evaluate_oval env VERBOSE action) =
  (fst skipped,
   ValidateDocument (f_oval action) OSCAP_DOCUMENT_OVAL_DEFINITIONS
     (verbosity action >=? 0) :: snd skipped).
Proof.
  intros Hv Hvalid. cbv zeta. rewrite !evaluate_run.
  unfold evaluate_outcome, export_events. cbv zeta. simpl.
  rewrite Hvalid.
  destruct (Z.eqb_spec (validate action) 0) as [|_]; [contradiction|]. simpl.
  repeat (step; simpl; try discriminate); reflexivity.
Qed.

Lemma evaluate_validated_as_skipped_witness :
  snd (run (app_evaluate_oval (H:=libopenscap) (fair_weather three mixed) 0
              (eval_action None None))) =
  ValidateDocument "defs.xml" OSCAP_DOCUMENT_OVAL_DEFINITIONS true ::
  snd (run (app_evaluate_oval (H:=libopenscap) (fair_weather three mixed) 0
              (set_validate (eval_action None None) 0))).
Proof.
  rewrite (evaluate_validated_as_skipped (H:=libopenscap) (fair_weather three mixed) 0
             (eval_action None None)).
  - reflexivity.
  - simpl. lia.
  - reflexivity.
Defined.

(** X11: once the session is open, the evaluate workflow takes the fault
    exit exactly when the evaluation call returned -1 and an error is
    pending (raised by that call or still pending from an earlier one);
    a -1 with no error pending is treated as a result, and with --id it
    makes the run succeed when neither OVAL_RESULT_FALSE nor
    OVAL_RESULT_UNKNOWN is -1. *)
Theorem evaluate_fault_needs_error `{oval_headers} (env : environment)
    (VERBOSE : Z) (action : oscap_action) (m : oval_definition_model) :
  validate action = 0 \/ value (validate_document env (f_oval action)) = true ->
  value (definition_model_import env (f_oval action)) = Some m ->
  value (agent_new_session env m (basename (f_oval action))) = true ->
  let out := run (app_evaluate_oval env VERBOSE action) in
  let r := match id action with
           | Some i => value (agent_eval_definition env i)
           | None => value (agent_eval_system env)
           end in
  let fault := (r =? -1) && is_some (pending_after_evaluation env action m) in
  evaluation_completed (snd out) = negb fault /\
  (fst out = OSCAP_ERROR <-> fault = true) /\
  (id action <> None -> r = -1 -> fault = false ->
   OVAL_RESULT_FALSE <> -1 -> OVAL_RESULT_UNKNOWN <> -1 ->
   fst out = OSCAP_OK).
Proof.
  intros Hvalid Himp Hsess. cbv zeta. rewrite evaluate_run.
  unfold evaluate_outcome, evaluation_completed, export_events, report_lines,
    pending_after_evaluation.
  cbv zeta. rewrite Himp, Hsess. simpl.
  assert (Hgo : negb (validate action =? 0)
                && negb (value (validate_document env (f_oval action))) = false).
  { destruct Hvalid as [Hv|Hv]; rewrite Hv; [reflexivity|].
    apply andb_false_r. }
  rewrite Hgo.
  destruct (id action) as [i|] eqn:Hid.
  - set (p := orelse (raised (agent_eval_definition env i)) _).
    destruct (Z.eqb_spec (value (agent_eval_definition env i)) (-1)) as [Hr|Hr];
      destruct p; simpl;
      repeat (step; simpl; try discriminate);
      repeat rewrite existsb_app; simpl;
      (split; [reflexivity|split; [split; intros; try discriminate; try reflexivity|]]);
      intros; try congruence; try reflexivity.
    all: try (exfalso;
      repeat match goal with
             | Hb : _ && _ = false |- _ => apply andb_false_iff in Hb; destruct Hb
             | Hb : negb _ = false |- _ => apply negb_false_iff in Hb
             | Hb : (_ =? _) = true |- _ => apply Z.eqb_eq in Hb
             end; congruence).
  - set (p := orelse (raised (agent_eval_system env)) _).
    destruct (Z.eqb_spec (value (agent_eval_system env)) (-1)) as [Hr|Hr];
      destruct p; simpl;
      repeat (step; simpl; try discriminate);
      repeat rewrite existsb_app;
      rewrite ?callback_lines_stdout by reflexivity; simpl;
      (split; [reflexivity|split; [split; intros; try discriminate; try reflexivity|]]);
      intros; try congruence; try reflexivity.
Qed.

(** A definition whose evaluation returns -1 while nothing is pending. *)
Lemma evaluate_fault_needs_error_witness :
  fst (run (app_evaluate_oval (H:=libopenscap) (fair_weather three (fun _ => -1)) 0
              (eval_action (Some "a"%string) None))) = OSCAP_OK.
Proof.
  apply (evaluate_fault_needs_error (H:=libopenscap) (fair_weather three (fun _ => -1)) 0
           (eval_action (Some "a"%string) None) {| definitions := three |});
    try reflexivity; try discriminate.
  right. reflexivity.
Defined.

(** X12: when the session cannot be created the evaluate workflow
    returns OSCAP_ERROR with the fixed message as the last line on
    stderr and nothing on stdout; no aggregator is allocated and nothing
    is evaluated, and the definition model it imported is still held. *)
Theorem evaluate_session_failure `{oval_headers} (env : environment)
    (VERBOSE : Z) (action : oscap_action) (m : oval_definition_model) :
  validate action = 0 \/ value (validate_document env (f_oval action)) = true ->
  value (definition_model_import env (f_oval action)) = Some m ->
  value (agent_new_session env m (basename (f_oval action))) = false ->
  let out := run (app_evaluate_oval env VERBOSE action) in
  fst out = OSCAP_ERROR /\
  last (stderr_of (snd out)) EmptyString =
    ("Failed to create new agent session." ++ nl)%string /\
  stdout_of (snd out) = [] /\
  existsb (fun e => is_evaluation e ||
                    match e with MallocUsr => true | _ => false end) (snd out) = false /\
  leaked (snd out) = [DefinitionModel].
Proof.
  intros Hvalid Himp Hsess. cbv zeta. rewrite evaluate_run.
  unfold evaluate_outcome. cbv zeta. rewrite Himp, Hsess. simpl.
  assert (Hgo : negb (validate action =? 0)
                && negb (value (validate_document env (f_oval action))) = false).
  { destruct Hvalid as [Hv|Hv]; rewrite Hv; [reflexivity|].
    apply andb_false_r. }
  rewrite Hgo.
  destruct (negb (validate action =? 0)); destruct (orelse _ _); simpl;
    repeat split.
Qed.

Lemma evaluate_session_failure_witness :
  leaked (snd (run (app_evaluate_oval (H:=libopenscap) no_session 0
                      (eval_action None None)))) = [DefinitionModel].
Proof.
  apply (evaluate_session_failure (H:=libopenscap) no_session 0
           (eval_action None None) {| definitions := three |});
    try reflexivity.
  right. reflexivity.
Defined.

(** X13: the exit status of the evaluate workflow does not depend on the
    verbosity, on the results file or on the report file: printing,
    exporting and rendering never change it. *)
Theorem evaluate_status_ignores_output `{oval_headers} (env : environment)
    (VERBOSE VERBOSE' : Z) (action : oscap_action)
    (results report : option string) :
  fst (run (app_evaluate_oval env VERBOSE' (set_f_report (set_f_results action results) report))) =
  fst (run (app_evaluate_oval env VERBOSE action)).
Proof.
  rewrite !evaluate_run. unfold evaluate_outcome. cbv zeta. simpl.
  repeat (step; simpl; try discriminate); reflexivity.
Qed.

Lemma acquired_callback_lines `{oval_headers} (env : environment) (VERBOSE : Z)
    (defs : list string) :
  acquired (callback_lines env VERBOSE defs) = [].
Proof.
  unfold callback_lines. destruct (VERBOSE >=? 0); [|reflexivity].
  induction defs as [|d rest IH]; simpl; [reflexivity|exact IH].
Qed.

Lemma acquired_app (tr1 tr2 : list event) :
  acquired (tr1 ++ tr2) = acquired tr1 ++ acquired tr2.
Proof. apply flat_map_app. Qed.

Lemma acquired_cons (e : event) (tr : list event) :
  acquired (e :: tr) = acquired [e] ++ acquired tr.
Proof. unfold acquired. simpl. rewrite app_nil_r. reflexivity. Qed.

Ltac peel_acquired :=
  match goal with
  | |- context [acquired (?e :: ?tr)] =>
      lazymatch tr with
      | [] => fail
      | _ => rewrite (acquired_cons e tr)
      end
  end.

(** X23: whenever the evaluate workflow returns OSCAP_ERROR, everything
    it acquired on the way (definition model, session, aggregator) is
    still held: none of its error exits frees anything. *)
Theorem evaluate_error_holds_everything `{oval_headers} (env : environment)
    (VERBOSE : Z) (action : oscap_action) :
  let out := run (app_evaluate_oval env VERBOSE action) in
  fst out = OSCAP_ERROR ->
  leaked (snd out) = acquired (snd out).
Proof.
  cbv zeta. rewrite evaluate_run.
  unfold evaluate_outcome, export_events, report_lines.
  cbv zeta.
  remember leaked as held eqn:Hheld.
  remember acquired as got eqn:Hgot.
  repeat (step; simpl; try discriminate).
  all: intros _; subst held got; unfold leaked;
    repeat first [ rewrite held_after_app
                 | rewrite held_after_callback_lines
                 | rewrite acquired_app
                 | rewrite acquired_callback_lines
                 | peel_event
                 | peel_acquired ];
    reflexivity.
Qed.

Lemma evaluate_error_holds_everything_witness :
  leaked (snd (run (app_evaluate_oval (H:=libopenscap) faulty_agent 0
                      (eval_action None None)))) =
  [DefinitionModel; AgentSession; Usr].
Proof.
  rewrite (evaluate_error_holds_everything (H:=libopenscap) faulty_agent 0
             (eval_action None None)).
  - reflexivity.
  - reflexivity.
Defined.

(** ** The aggregator: counts by verdict, order, and the batch status *)

Lemma results_distinct `{oval_headers} :
  NoDup oval_results ->
  OVAL_RESULT_TRUE <> OVAL_RESULT_FALSE /\ OVAL_RESULT_TRUE <> OVAL_RESULT_ERROR /\
  OVAL_RESULT_TRUE <> OVAL_RESULT_UNKNOWN /\ OVAL_RESULT_TRUE <> OVAL_RESULT_NOT_EVALUATED /\
  OVAL_RESULT_TRUE <> OVAL_RESULT_NOT_APPLICABLE /\
  OVAL_RESULT_FALSE <> OVAL_RESULT_ERROR /\ OVAL_RESULT_FALSE <> OVAL_RESULT_UNKNOWN /\
  OVAL_RESULT_FALSE <> OVAL_RESULT_NOT_EVALUATED /\
  OVAL_RESULT_FALSE <> OVAL_RESULT_NOT_APPLICABLE /\
  OVAL_RESULT_ERROR <> OVAL_RESULT_UNKNOWN /\ OVAL_RESULT_ERROR <> OVAL_RESULT_NOT_EVALUATED /\
  OVAL_RESULT_ERROR <> OVAL_RESULT_NOT_APPLICABLE /\
  OVAL_RESULT_UNKNOWN <> OVAL_RESULT_NOT_EVALUATED /\
  OVAL_RESULT_UNKNOWN <> OVAL_RESULT_NOT_APPLICABLE /\
  OVAL_RESULT_NOT_EVALUATED <> OVAL_RESULT_NOT_APPLICABLE.
Proof.
  unfold oval_results. intros Hnd.
  repeat match goal with
         | Hn : NoDup (_ :: _) |- _ =>
             apply NoDup_cons_iff in Hn; destruct Hn as [? Hn]
         end.
  simpl in *. repeat split; intros Heq; rewrite Heq in *; tauto.
Qed.

Ltac neq_false :=
  repeat match goal with
         | Hd : ?a <> ?b |- context [?a =? ?b] =>
             rewrite (proj2 (Z.eqb_neq a b) Hd)
         | Hd : ?b <> ?a |- context [?a =? ?b] =>
             rewrite (proj2 (Z.eqb_neq a b) (not_eq_sym Hd))
         end.

Lemma tally_counters `{oval_headers} (n : Z) (u : oval_usr) :
  NoDup oval_results ->
  Forall (fun x => 0 <= x) (counters u) ->
  usr_total u < INT_MAX ->
  counters (tally n u) =
  [result_true u + Z.b2z (n =? OVAL_RESULT_TRUE);
   result_false u + Z.b2z (n =? OVAL_RESULT_FALSE);
   result_error u + Z.b2z (n =? OVAL_RESULT_ERROR);
   result_unknown u + Z.b2z (n =? OVAL_RESULT_UNKNOWN);
   result_neval u + Z.b2z (n =? OVAL_RESULT_NOT_EVALUATED);
   result_napp u + Z.b2z (n =? OVAL_RESULT_NOT_APPLICABLE)].
Proof.
  intros Hnd Hr Ht.
  destruct u as [f t e k ne na].
  unfold counters in Hr. cbn [result_true result_false result_error result_unknown
                              result_neval result_napp] in Hr.
  repeat match goal with
         | Hf : Forall _ (_ :: _) |- _ => inversion Hf; clear Hf; subst
         end.
  unfold usr_total, counters in Ht.
  cbn [result_true result_false result_error result_unknown result_neval result_napp
       fold_right] in Ht.
  assert (Hincr : forall x, 0 <= x -> x < INT_MAX -> int_incr x = x + 1).
  { intros x Hx Hy. unfold int_incr. destruct (Z.eqb_spec x INT_MAX); [lia|reflexivity]. }
  assert (Hf : f < INT_MAX) by lia. assert (Ht' : t < INT_MAX) by lia.
  assert (He : e < INT_MAX) by lia. assert (Hk : k < INT_MAX) by lia.
  assert (Hne : ne < INT_MAX) by lia. assert (Hna : na < INT_MAX) by lia.
  apply results_distinct in Hnd.
  destruct Hnd as (D1 & D2 & D3 & D4 & D5 & D6 & D7 & D8 & D9 & D10 & D11 & D12
                   & D13 & D14 & D15).
  unfold tally, counters, incr_true, incr_false, incr_error, incr_unknown,
    incr_neval, incr_napp.
  cbn [result_true result_false result_error result_unknown result_neval result_napp].
  destruct (Z.eqb_spec n OVAL_RESULT_TRUE) as [->|HT];
    [neq_false; cbn [Z.b2z]; rewrite Hincr by assumption;
     rewrite ?Z.add_0_r; reflexivity|].
  destruct (Z.eqb_spec n OVAL_RESULT_FALSE) as [->|HF];
    [neq_false; cbn [Z.b2z]; rewrite Hincr by assumption;
     rewrite ?Z.add_0_r; reflexivity|].
  destruct (Z.eqb_spec n OVAL_RESULT_ERROR) as [->|HE];
    [neq_false; cbn [Z.b2z]; rewrite Hincr by assumption;
     rewrite ?Z.add_0_r; reflexivity|].
  destruct (Z.eqb_spec n OVAL_RESULT_UNKNOWN) as [->|HU];
    [neq_false; cbn [Z.b2z]; rewrite Hincr by assumption;
     rewrite ?Z.add_0_r; reflexivity|].
  destruct (Z.eqb_spec n OVAL_RESULT_NOT_EVALUATED) as [->|HN];
    [neq_false; cbn [Z.b2z]; rewrite Hincr by assumption;
     rewrite ?Z.add_0_r; reflexivity|].
  destruct (Z.eqb_spec n OVAL_RESULT_NOT_APPLICABLE) as [->|HA];
    [cbn [Z.b2z]; rewrite Hincr by assumption;
     rewrite ?Z.add_0_r; reflexivity|].
  cbn [Z.b2z]. rewrite ?Z.add_0_r. reflexivity.
Qed.

Lemma verdict_count_cons (env : environment) (d : string) (rest : list string) (c : Z) :
  verdict_count env (d :: rest) c =
  Z.b2z (agent_definition_result env d =? c) + verdict_count env rest c.
Proof.
  unfold verdict_count. simpl.
  destruct (agent_definition_result env d =? c); simpl Z.b2z; cbn [List.length]; lia.
Qed.

Lemma tallies_counters `{oval_headers} (env : environment) (defs : list string) :
  NoDup oval_results ->
  forall u : oval_usr,
  Forall (fun x => 0 <= x) (counters u) ->
  usr_total u + Z.of_nat (List.length defs) <= INT_MAX ->
  counters (tallies env defs u) =
  [result_true u + verdict_count env defs OVAL_RESULT_TRUE;
   result_false u + verdict_count env defs OVAL_RESULT_FALSE;
   result_error u + verdict_count env defs OVAL_RESULT_ERROR;
   result_unknown u + verdict_count env defs OVAL_RESULT_UNKNOWN;
   result_neval u + verdict_count env defs OVAL_RESULT_NOT_EVALUATED;
   result_napp u + verdict_count env defs OVAL_RESULT_NOT_APPLICABLE].
Proof.
  intros Hnd. induction defs as [|d rest IH]; intros u Hr Ht.
  - unfold verdict_count, counters. simpl. rewrite !Z.add_0_r. reflexivity.
  - cbn [tallies fold_left List.length] in *.
    fold (tallies env rest (tally (agent_definition_result env d) u)).
    destruct (tally_total (agent_definition_result env d) u Hr) as [Hsum Hpos]; [lia|].
    assert (Hlt : usr_total u < INT_MAX) by lia.
    pose proof (tally_counters (agent_definition_result env d) u Hnd Hr Hlt) as Hc.
    rewrite IH; [|exact Hpos|].
    + unfold counters in Hc. injection Hc as -> -> -> -> -> ->.
      rewrite !verdict_count_cons. f_equal; [lia|].
      f_equal; [lia|]. f_equal; [lia|]. f_equal; [lia|]. f_equal; [lia|].
      f_equal; lia.
    + rewrite Hsum. destruct (is_result (agent_definition_result env d)); lia.
Qed.

Lemma batch_counts_by_verdict_aux `{oval_headers} (env : environment)
    (defs : list string) :
  NoDup oval_results ->
  Z.of_nat (List.length defs) <= INT_MAX ->
  result_false (tallies env defs usr_zero) = verdict_count env defs OVAL_RESULT_FALSE /\
  result_unknown (tallies env defs usr_zero) = verdict_count env defs OVAL_RESULT_UNKNOWN.
Proof.
  intros Hnd Hlen.
  pose proof (tallies_counters env defs Hnd usr_zero) as Hc.
  unfold counters in Hc. simpl in Hc.
  assert (Hpos : Forall (fun x : Z => 0 <= x) [0; 0; 0; 0; 0; 0])
    by (repeat constructor; lia).
  specialize (Hc Hpos). change (usr_total usr_zero) with 0 in Hc.
  specialize (Hc ltac:(lia)).
  injection Hc as _ Hf _ Hu _ _. split; assumption.
Qed.

(** X14: when the six enumerators are pairwise distinct, after a batch
    over at most INT_MAX definitions each counter of the aggregator is
    the number of definitions with that verdict. *)
Theorem batch_counts_by_verdict `{oval_headers} (env : environment)
    (defs : list string) :
  NoDup oval_results ->
  Z.of_nat (List.length defs) <= INT_MAX ->
  counters (tallies env defs usr_zero) = map (verdict_count env defs) oval_results.
Proof.
  intros Hnd Hlen. rewrite (tallies_counters env defs Hnd usr_zero).
  - reflexivity.
  - repeat constructor; simpl; lia.
  - change (usr_total usr_zero) with 0. lia.
Qed.

Lemma libopenscap_distinct : NoDup (oval_results (H:=libopenscap)).
Proof.
  unfold oval_results. simpl.
  repeat (constructor; [simpl; intuition discriminate|]). constructor.
Qed.

Lemma batch_counts_by_verdict_witness :
  counters (tallies (H:=libopenscap) (fair_weather three mixed) three usr_zero) =
  [2; 1; 0; 0; 0; 0].
Proof.
  rewrite (batch_counts_by_verdict (H:=libopenscap) (fair_weather three mixed) three).
  - reflexivity.
  - exact libopenscap_distinct.
  - vm_compute. discriminate.
Defined.

Lemma tally_cases `{oval_headers} (n : Z) :
  (forall u, tally n u = incr_true u) \/ (forall u, tally n u = incr_false u) \/
  (forall u, tally n u = incr_error u) \/ (forall u, tally n u = incr_unknown u) \/
  (forall u, tally n u = incr_neval u) \/ (forall u, tally n u = incr_napp u) \/
  (forall u, tally n u = u).
Proof.
  unfold tally.
  destruct (n =? OVAL_RESULT_TRUE); [left; reflexivity|right].
  destruct (n =? OVAL_RESULT_FALSE); [left; reflexivity|right].
  destruct (n =? OVAL_RESULT_ERROR); [left; reflexivity|right].
  destruct (n =? OVAL_RESULT_UNKNOWN); [left; reflexivity|right].
  destruct (n =? OVAL_RESULT_NOT_EVALUATED); [left; reflexivity|right].
  destruct (n =? OVAL_RESULT_NOT_APPLICABLE); [left; reflexivity|right].
  reflexivity.
Qed.

Lemma tally_commutes `{oval_headers} (a b : Z) (u : oval_usr) :
  tally a (tally b u) = tally b (tally a u).
Proof.
  destruct (tally_cases a) as [Ha|[Ha|[Ha|[Ha|[Ha|[Ha|Ha]]]]]];
    destruct (tally_cases b) as [Hb|[Hb|[Hb|[Hb|[Hb|[Hb|Hb]]]]]];
    rewrite !Ha, !Hb; reflexivity.
Qed.

(** X15: the aggregator does not depend on the order in which the
    definitions are reported: two batches over the same definitions in
    another order leave the same counters. *)
Theorem tallies_order_irrelevant `{oval_headers} (env : environment)
    (defs defs' : list string) :
  Permutation defs defs' ->
  forall u, tallies env defs u = tallies env defs' u.
Proof.
  unfold tallies.
  induction 1 as [|d l l' _ IH|d d' l|l l' l'' _ IH1 _ IH2]; intros u; simpl.
  - reflexivity.
  - apply IH.
  - rewrite tally_commutes. reflexivity.
  - rewrite IH1. apply IH2.
Qed.

Lemma tallies_order_irrelevant_witness :
  tallies (H:=libopenscap) (fair_weather three mixed) ["a"; "b"; "c"]%string usr_zero =
  tallies (H:=libopenscap) (fair_weather three mixed) ["c"; "a"; "b"]%string usr_zero.
Proof.
  apply (tallies_order_irrelevant (H:=libopenscap)).
  apply Permutation_sym.
  exact (Permutation_cons_append ["a"%string; "b"%string] "c"%string).
Defined.

Lemma no_verdict_count (env : environment) (defs : list string) (c : Z) :
  verdict_count env defs c = 0 <->
  Forall (fun d => agent_definition_result env d <> c) defs.
Proof.
  induction defs as [|d rest IH].
  - split; [constructor|reflexivity].
  - rewrite verdict_count_cons. split.
    + intros Hz.
      assert (Hpos : 0 <= verdict_count env rest c) by (unfold verdict_count; lia).
      destruct (Z.eqb_spec (agent_definition_result env d) c) as [Heq|Hne];
        simpl Z.b2z in Hz; [lia|].
      constructor; [exact Hne|]. apply IH. lia.
    + intros Hall. inversion Hall as [|x l Hd Hrest]; subst.
      destruct (Z.eqb_spec (agent_definition_result env d) c) as [Heq|Hne];
        [contradiction|].
      simpl Z.b2z. apply IH in Hrest. lia.
Qed.

Lemma evaluate_batch_status `{oval_headers} (env : environment) (VERBOSE : Z)
    (action : oscap_action) (m : oval_definition_model) :
  let out := run (app_evaluate_oval env VERBOSE action) in
  evaluation_completed (snd out) = true ->
  id action = None ->
  value (definition_model_import env (f_oval action)) = Some m ->
  fst out =
  if (result_false (tallies env (definitions m) usr_zero) =? 0)
     && (result_unknown (tallies env (definitions m) usr_zero) =? 0)
  then OSCAP_OK else OSCAP_FAIL.
Proof.
  cbv zeta. intros Hc Hid Himp. revert Hc. rewrite evaluate_run.
  unfold evaluate_outcome, evaluation_completed. cbv zeta.
  rewrite Hid, Himp.
  repeat (step; simpl; try discriminate).
  all: intros Hc; repeat rewrite existsb_app in Hc;
    rewrite ?callback_lines_stdout in Hc by reflexivity;
    simpl in Hc; try discriminate; reflexivity.
Qed.

(** X16: with pairwise distinct enumerators, a batch over at most
    INT_MAX definitions that completes returns OSCAP_OK exactly when no
    definition evaluates to OVAL_RESULT_FALSE or OVAL_RESULT_UNKNOWN, and
    OSCAP_FAIL as soon as one does. *)
Theorem batch_passes_iff_clean `{oval_headers} (env : environment) (VERBOSE : Z)
    (action : oscap_action) (m : oval_definition_model) :
  NoDup oval_results ->
  Z.of_nat (List.length (definitions m)) <= INT_MAX ->
  id action = None ->
  value (definition_model_import env (f_oval action)) = Some m ->
  let out := run (app_evaluate_oval env VERBOSE action) in
  evaluation_completed (snd out) = true ->
  (fst out = OSCAP_OK <->
   Forall (fun d => agent_definition_result env d <> OVAL_RESULT_FALSE /\
                    agent_definition_result env d <> OVAL_RESULT_UNKNOWN)
     (definitions m)) /\
  (fst out <> OSCAP_OK -> fst out = OSCAP_FAIL).
Proof.
  intros Hnd Hlen Hid Himp out Hc. subst out.
  rewrite (evaluate_batch_status env VERBOSE action m Hc Hid Himp).
  pose proof (batch_counts_by_verdict_aux env (definitions m) Hnd Hlen) as [Hf Hu].
  rewrite Hf, Hu.
  rewrite Forall_forall.
  pose proof (no_verdict_count env (definitions m) OVAL_RESULT_FALSE) as Nf.
  pose proof (no_verdict_count env (definitions m) OVAL_RESULT_UNKNOWN) as Nu.
  rewrite Forall_forall in Nf, Nu.
  destruct (Z.eqb_spec (verdict_count env (definitions m) OVAL_RESULT_FALSE) 0) as [Zf|Zf];
    destruct (Z.eqb_spec (verdict_count env (definitions m) OVAL_RESULT_UNKNOWN) 0) as [Zu|Zu];
    simpl; split; try (intros; reflexivity); try (intros Hx; exfalso; apply Hx; reflexivity).
  - split; [intros _ d Hd|reflexivity].
    split; [apply (proj1 Nf Zf d Hd)|apply (proj1 Nu Zu d Hd)].
  - split; [discriminate|]. intros Hall. exfalso. apply Zu, Nu.
    intros d Hd. apply (Hall d Hd).
  - split; [discriminate|]. intros Hall. exfalso. apply Zf, Nf.
    intros d Hd. apply (Hall d Hd).
  - split; [discriminate|]. intros Hall. exfalso. apply Zf, Nf.
    intros d Hd. apply (Hall d Hd).
Qed.

Lemma batch_passes_iff_clean_witness :
  fst (run (app_evaluate_oval (H:=libopenscap) (fair_weather three (fun _ => 1)) 0
              (eval_action None None))) = OSCAP_OK.
Proof.
  apply (batch_passes_iff_clean (H:=libopenscap) (fair_weather three (fun _ => 1)) 0
           (eval_action None None) {| definitions := three |}
           libopenscap_distinct).
  - vm_compute. discriminate.
  - reflexivity.
  - reflexivity.
  - reflexivity.
  - repeat constructor; simpl; discriminate.
Defined.

(** ** The option parser: what it accepts, what it refuses *)

Lemma table_handled (r : getopt_return) :
  from_table r -> handled (getopt_c r) = true.
Proof.
  intros (o & arg & Hin & ->). unfold long_options in Hin. simpl in Hin.
  repeat (destruct Hin as [<-|Hin]; [reflexivity|]). destruct Hin.
Qed.

Lemma getopt_loop_accepts (rs : list getopt_return) :
  Forall (fun r => handled (getopt_c r) = true) rs ->
  forall (a : oscap_action) (s : state),
  getopt_loop rs a s = (inl (fold_left apply_return rs a), s).
Proof.
  induction 1 as [|r rs Hr _ IH]; intros a s; simpl; [reflexivity|].
  unfold apply_return at 2. unfold handled in Hr.
  destruct (Z.eqb_spec (getopt_c r) (-1)) as [Hm|_].
  { rewrite Hm in Hr. discriminate Hr. }
  destruct (getopt_c r =? OVAL_OPT_RESULT_FILE); [apply IH|].
  destruct (getopt_c r =? OVAL_OPT_REPORT_FILE); [apply IH|].
  destruct (getopt_c r =? OVAL_OPT_OUTPUT); [apply IH|].
  destruct (getopt_c r =? OVAL_OPT_ID); [apply IH|].
  destruct (getopt_c r =? OVAL_OPT_FILE_VERSION); [apply IH|].
  destruct (getopt_c r =? 0); [apply IH|discriminate Hr].
Qed.

Lemma apply_return_keeps (a : oscap_action) (r : getopt_return) :
  module (apply_return a r) = module a /\
  verbosity (apply_return a r) = verbosity a /\
  url_oval (apply_return a r) = url_oval a /\
  url_syschar (apply_return a r) = url_syschar a /\
  f_oval (apply_return a r) = f_oval a /\
  f_syschar (apply_return a r) = f_syschar a.
Proof.
  unfold apply_return.
  destruct (getopt_stored r) as [[v|v]|];
    repeat match goal with
           | |- context [if ?b then _ else _] => destruct b
           end; repeat split.
Qed.

Lemma apply_returns_keep (rs : list getopt_return) :
  forall a : oscap_action,
  module (fold_left apply_return rs a) = module a /\
  verbosity (fold_left apply_return rs a) = verbosity a /\
  url_oval (fold_left apply_return rs a) = url_oval a /\
  url_syschar (fold_left apply_return rs a) = url_syschar a /\
  f_oval (fold_left apply_return rs a) = f_oval a /\
  f_syschar (fold_left apply_return rs a) = f_syschar a.
Proof.
  induction rs as [|r rs IH]; intros a; simpl; [repeat split|].
  destruct (IH (apply_return a r)) as (-> & -> & -> & -> & -> & ->).
  apply apply_return_keeps.
Qed.

Lemma getopt_run_handled (argv : list string) (scan : getopt_scan)
    (action : oscap_action) :
  Forall (fun r => handled (getopt_c r) = true) (getopt_returns scan) ->
  run (getopt_oval argv scan action) =
  let a1 := fold_left apply_return (getopt_returns scan)
              (set_doctype action OSCAP_DOCUMENT_OVAL_DEFINITIONS) in
  let failed msg :=
    ({| parsed_ok := false; parsed_action := a1; parsed_VERBOSE := verbosity a1 |},
     [ModuleUsage (module a1) (Some msg)]) in
  if optind scan >=? argc argv
  then failed "Definitions file needs to be specified!"%string
  else
    let a2 := set_url_oval a1 (argv_at (getopt_argv scan) (optind scan)) in
    if oscap_module_eqb (module a1) OVAL_ANALYSE
    then
      if optind scan + 1 >? argc argv
      then ({| parsed_ok := false; parsed_action := a2; parsed_VERBOSE := verbosity a1 |},
            [ModuleUsage (module a1)
               (Some "System characteristics file needs to be specified!"%string)])
      else ({| parsed_ok := true;
               parsed_action :=
                 set_url_syschar a2 (argv_at (getopt_argv scan) (optind scan + 1));
               parsed_VERBOSE := verbosity a1 |}, [])
    else ({| parsed_ok := true; parsed_action := a2; parsed_VERBOSE := verbosity a1 |}, []).
Proof.
  intros Hh. unfold run, getopt_oval, bind at 1.
  rewrite (getopt_loop_accepts _ Hh). cbv zeta.
  unfold oscap_module_usage. exec.
  destruct (optind scan >=? argc argv); simpl; [reflexivity|].
  destruct (oscap_module_eqb _ OVAL_ANALYSE); simpl; [|reflexivity].
  destruct (optind scan + 1 >? argc argv); reflexivity.
Qed.

(** X17: every entry of [long_options] is handled by the [switch]: for a
    scan made of returns for entries of the table that leaves a
    positional argument, the parser succeeds and prints nothing, takes
    the definitions file from the entry at [optind] of the vector as
    [getopt_long] left it (a reordering of [argv]), sets VERBOSE to the
    verbosity, and leaves the module, the verbosity and the file names
    of the action alone. *)
Theorem getopt_accepts_table (argv : list string) (scan : getopt_scan)
    (action : oscap_action) :
  Forall from_table (getopt_returns scan) ->
  Permutation argv (getopt_argv scan) ->
  0 <= optind scan < argc argv ->
  let out := run (getopt_oval argv scan action) in
  let a := parsed_action (fst out) in
  parsed_ok (fst out) = true /\
  snd out = [] /\
  (exists file, nth_error (getopt_argv scan) (Z.to_nat (optind scan)) = Some file /\
                url_oval a = Some file) /\
  parsed_VERBOSE (fst out) = verbosity action /\
  module a = module action /\ verbosity a = verbosity action /\
  f_oval a = f_oval action /\ f_syschar a = f_syschar action.
Proof.
  intros Htab Hperm Hind. cbv zeta.
  assert (Hh : Forall (fun r => handled (getopt_c r) = true) (getopt_returns scan)).
  { apply Forall_impl with (2 := Htab). exact table_handled. }
  rewrite (getopt_run_handled argv scan action Hh). cbv zeta.
  set (a1 := fold_left apply_return (getopt_returns scan)
               (set_doctype action OSCAP_DOCUMENT_OVAL_DEFINITIONS)).
  destruct (apply_returns_keep (getopt_returns scan)
              (set_doctype action OSCAP_DOCUMENT_OVAL_DEFINITIONS))
    as (Hm & Hv & _ & _ & Hf & Hs).
  fold a1 in Hm, Hv, Hf, Hs. simpl in Hm, Hv, Hf, Hs.
  destruct (Z.geb_spec (optind scan) (argc argv)) as [|_]; [lia|].
  pose proof (Permutation_length Hperm) as Hlen.
  assert (Hfile : exists file,
            nth_error (getopt_argv scan) (Z.to_nat (optind scan)) = Some file).
  { destruct (nth_error (getopt_argv scan) (Z.to_nat (optind scan))) as [file|] eqn:Hn;
      [exists file; reflexivity|].
    apply nth_error_None in Hn. unfold argc in Hind. lia. }
  destruct Hfile as [file Hfile].
  assert (Hat : argv_at (getopt_argv scan) (optind scan) = Some file).
  { unfold argv_at. destruct (Z.ltb_spec (optind scan) 0); [lia|exact Hfile]. }
  rewrite Hat.
  destruct (oscap_module_eqb (module a1) OVAL_ANALYSE).
  - destruct (Z.gtb_spec (optind scan + 1) (argc argv)) as [|_]; [lia|]. simpl.
    split; [reflexivity|split; [reflexivity|split;
      [exists file; split; [exact Hfile|reflexivity]|repeat split; assumption]]].
  - simpl.
    split; [reflexivity|split; [reflexivity|split;
      [exists file; split; [exact Hfile|reflexivity]|repeat split; assumption]]].
Qed.

Lemma two_outputs_from_table : Forall from_table two_outputs.
Proof.
  repeat constructor.
  - exists {| lo_name := "result-file"; lo_has_arg := true;
              lo_effect := Returns OVAL_OPT_RESULT_FILE |}, "a.xml"%string.
    split; [simpl; tauto|reflexivity].
  - exists {| lo_name := "output"; lo_has_arg := true;
              lo_effect := Returns OVAL_OPT_OUTPUT |}, "b.xml"%string.
    split; [simpl; tauto|reflexivity].
Qed.

(** [eval defs.xml --id x]: the definitions file is read after the option
    was moved in front of it. *)
Lemma getopt_accepts_table_witness :
  parsed_ok (fst (run (getopt_oval eval_id_last eval_id_last_scan
                         (eval_action None None)))) = true /\
  url_oval (parsed_action (fst (run (getopt_oval eval_id_last eval_id_last_scan
                                       (eval_action None None))))) =
  Some "defs.xml"%string.
Proof.
  destruct (getopt_accepts_table eval_id_last eval_id_last_scan (eval_action None None))
    as (Hok & _ & (file & Hfile & Hurl) & _).
  - repeat constructor.
    exists {| lo_name := "id"; lo_has_arg := true; lo_effect := Returns OVAL_OPT_ID |},
           "x"%string.
    split; [simpl; tauto|reflexivity].
  - unfold eval_id_last, eval_id_last_scan. simpl.
    do 3 apply perm_skip.
    exact (Permutation_cons_append ["--id"%string; "x"%string] "defs.xml"%string).
  - unfold argc. simpl. lia.
  - split; [exact Hok|]. rewrite Hurl. simpl in Hfile. symmetry. exact Hfile.
Defined.

(** X18: the parser refuses a command line in two ways, and prints the
    usage exactly once when it does.  A return the [switch] has no case
    for ends the parse at once with the usage and no message, whatever
    follows it; a scan that leaves no positional argument ends it with
    the message that the definitions file is missing. *)
Theorem getopt_refuses (argv : list string) (scan : getopt_scan)
    (action : oscap_action) (before after : list getopt_return) (r : getopt_return) :
  Forall (fun x => handled (getopt_c x) = true) before ->
  (getopt_returns scan = before ++ r :: after ->
   handled (getopt_c r) = false -> getopt_c r <> -1 ->
   parsed_ok (fst (run (getopt_oval argv scan action))) = false /\
   snd (run (getopt_oval argv scan action)) = [ModuleUsage (module action) None]) /\
  (getopt_returns scan = before -> optind scan >= argc argv ->
   parsed_ok (fst (run (getopt_oval argv scan action))) = false /\
   snd (run (getopt_oval argv scan action)) =
     [ModuleUsage (module action)
        (Some "Definitions file needs to be specified!"%string)]).
Proof.
  intros Hb. split.
  - intros Hscan Hr Hm1.
    assert (Hrun : run (getopt_oval argv scan action) =
                   ({| parsed_ok := false;
                       parsed_action :=
                         store (getopt_stored r)
                           (fold_left apply_return before
                              (set_doctype action OSCAP_DOCUMENT_OVAL_DEFINITIONS));
                       parsed_VERBOSE := verbosity action |},
                    [ModuleUsage (module action) None]));
      [|rewrite Hrun; split; reflexivity].
    unfold run, getopt_oval, bind at 1. rewrite Hscan.
    assert (Hloop : forall a s,
      getopt_loop (before ++ r :: after) a s =
      oscap_module_usage (store (getopt_stored r) (fold_left apply_return before a)) None s).
    { clear Hscan. induction Hb as [|x xs Hx _ IH]; intros a s.
      - simpl. unfold handled in Hr.
        destruct (Z.eqb_spec (getopt_c r) (-1)); [contradiction|].
        repeat match goal with
               | |- context [if ?b then _ else _] =>
                   destruct b; [simpl in Hr; rewrite ?orb_true_r in Hr; discriminate Hr|]
               end.
        reflexivity.
      - simpl app. cbn [getopt_loop fold_left].
        set (ax := apply_return a x).
        assert (Hax : ax = apply_return a x) by reflexivity.
        clearbody ax. unfold apply_return in Hax. revert Hax.
        unfold handled in Hx.
        destruct (Z.eqb_spec (getopt_c x) (-1)) as [Hm|_].
        { rewrite Hm in Hx. discriminate Hx. }
        destruct (getopt_c x =? OVAL_OPT_RESULT_FILE); [intros ->; apply IH|].
        destruct (getopt_c x =? OVAL_OPT_REPORT_FILE); [intros ->; apply IH|].
        destruct (getopt_c x =? OVAL_OPT_OUTPUT); [intros ->; apply IH|].
        destruct (getopt_c x =? OVAL_OPT_ID); [intros ->; apply IH|].
        destruct (getopt_c x =? OVAL_OPT_FILE_VERSION); [intros ->; apply IH|].
        destruct (getopt_c x =? 0); [intros ->; apply IH|discriminate Hx]. }
    rewrite Hloop. unfold oscap_module_usage. exec.
    assert (Hmod : module (store (getopt_stored r)
                     (fold_left apply_return before
                        (set_doctype action OSCAP_DOCUMENT_OVAL_DEFINITIONS))) =
                   module action).
    { destruct (apply_returns_keep before
                  (set_doctype action OSCAP_DOCUMENT_OVAL_DEFINITIONS)) as (Hm & _).
      destruct (getopt_stored r) as [[v|v]|]; simpl; exact Hm. }
    assert (Hver : verbosity (store (getopt_stored r)
                     (fold_left apply_return before
                        (set_doctype action OSCAP_DOCUMENT_OVAL_DEFINITIONS))) =
                   verbosity action).
    { destruct (apply_returns_keep before
                  (set_doctype action OSCAP_DOCUMENT_OVAL_DEFINITIONS)) as (_ & Hv & _).
      destruct (getopt_stored r) as [[v|v]|]; simpl; exact Hv. }
    rewrite Hmod, Hver. reflexivity.
  - intros Hscan Hge.
    rewrite <- Hscan in Hb.
    rewrite (getopt_run_handled argv scan action Hb). cbv zeta.
    destruct (apply_returns_keep (getopt_returns scan)
                (set_doctype action OSCAP_DOCUMENT_OVAL_DEFINITIONS)) as (Hm & _).
    destruct (Z.geb_spec (optind scan) (argc argv)) as [_|]; [|lia]. simpl.
    rewrite Hm. split; reflexivity.
Qed.

(** getopt_long answers an option it does not know with '?' (63). *)
Lemma getopt_refuses_witness :
  snd (run (getopt_oval eval_two_outputs
              (two_outputs_scan
                 (two_outputs ++
                  [{| getopt_c := 63; getopt_optarg := None; getopt_stored := None |}]))
              (eval_action None None))) =
  [ModuleUsage OVAL_EVAL None].
Proof.
  apply (getopt_refuses eval_two_outputs
           (two_outputs_scan
              (two_outputs ++
               [{| getopt_c := 63; getopt_optarg := None; getopt_stored := None |}]))
           (eval_action None None) two_outputs []
           {| getopt_c := 63; getopt_optarg := None; getopt_stored := None |}).
  - repeat constructor.
  - reflexivity.
  - reflexivity.
  - discriminate.
Defined.

Lemma apply_return_results (a : oscap_action) (r : getopt_return) :
  f_results (apply_return a r) =
  if sets_results r then getopt_optarg r else f_results a.
Proof.
  unfold apply_return, sets_results.
  destruct (Z.eqb_spec (getopt_c r) OVAL_OPT_RESULT_FILE) as [->|_];
    [destruct (getopt_stored r) as [[v|v]|]; reflexivity|].
  destruct (Z.eqb_spec (getopt_c r) OVAL_OPT_OUTPUT) as [->|_];
    [destruct (getopt_stored r) as [[v|v]|]; reflexivity|].
  simpl.
  destruct (getopt_stored r) as [[v|v]|];
    repeat match goal with
           | |- context [if ?b then _ else _] => destruct b
           end; reflexivity.
Qed.

Lemma apply_returns_results (rs : list getopt_return) :
  Forall (fun x => sets_results x = false) rs ->
  forall a, f_results (fold_left apply_return rs a) = f_results a.
Proof.
  induction 1 as [|x xs Hx _ IH]; intros a; simpl; [reflexivity|].
  rewrite IH, apply_return_results, Hx. reflexivity.
Qed.

(** X19: --result-file and --output write the same field of the action,
    and the last of them on the command line wins: when the parser
    succeeds, the results file is the argument of the last return for
    either option, whatever came before it. *)
Theorem getopt_last_results_file_wins (argv : list string) (scan : getopt_scan)
    (action : oscap_action) (before after : list getopt_return) (r : getopt_return) :
  getopt_returns scan = before ++ r :: after ->
  Forall (fun x => handled (getopt_c x) = true) (getopt_returns scan) ->
  sets_results r = true ->
  Forall (fun x => sets_results x = false) after ->
  optind scan < argc argv ->
  let out := run (getopt_oval argv scan action) in
  parsed_ok (fst out) = true /\
  f_results (parsed_action (fst out)) = getopt_optarg r.
Proof.
  intros Hscan Hh Hr Hafter Hind. cbv zeta.
  rewrite (getopt_run_handled argv scan action Hh). cbv zeta.
  assert (Hres : f_results (fold_left apply_return (getopt_returns scan)
                              (set_doctype action OSCAP_DOCUMENT_OVAL_DEFINITIONS)) =
                 getopt_optarg r).
  { rewrite Hscan, fold_left_app. simpl.
    rewrite (apply_returns_results after Hafter), apply_return_results, Hr.
    reflexivity. }
  destruct (Z.geb_spec (optind scan) (argc argv)) as [|_]; [lia|].
  destruct (oscap_module_eqb _ OVAL_ANALYSE).
  - destruct (Z.gtb_spec (optind scan + 1) (argc argv)) as [|_]; [lia|].
    simpl. split; [reflexivity|exact Hres].
  - simpl. split; [reflexivity|exact Hres].
Qed.

Lemma getopt_last_results_file_wins_witness :
  f_results (parsed_action (fst (run (getopt_oval eval_two_outputs
                                        (two_outputs_scan two_outputs)
                                        (eval_action None None))))) =
  Some "b.xml"%string.
Proof.
  apply (getopt_last_results_file_wins eval_two_outputs
           (two_outputs_scan two_outputs) (eval_action None None)
           [{| getopt_c := OVAL_OPT_RESULT_FILE; getopt_optarg := Some "a.xml"%string;
               getopt_stored := None |}]
           []
           {| getopt_c := OVAL_OPT_OUTPUT; getopt_optarg := Some "b.xml"%string;
              getopt_stored := None |}).
  - reflexivity.
  - repeat constructor.
  - reflexivity.
  - constructor.
  - unfold argc. simpl. lia.
Defined.

Lemma store_set_module (st : option flag_store) (a : oscap_action) (m : oscap_module) :
  store st (set_module a m) = set_module (store st a) m.
Proof. destruct st as [[v|v]|]; reflexivity. Qed.

Lemma getopt_loop_module (rs : list getopt_return) (m : oscap_module) :
  forall (a : oscap_action) (s : state),
  match getopt_loop rs a s with
  | (inl a1, s1) => getopt_loop rs (set_module a m) s = (inl (set_module a1 m), s1)
  | (inr p, _) =>
      parsed_ok p = false /\
      exists p' s', getopt_loop rs (set_module a m) s = (inr p', s') /\
                    parsed_ok p' = false
  end.
Proof.
  induction rs as [|r rs IH]; intros a s; simpl; [reflexivity|].
  destruct (getopt_c r =? -1); [reflexivity|].
  rewrite store_set_module.
  repeat match goal with
         | |- context [if ?b then _ else _] => destruct b; [apply IH|]
         end.
  unfold oscap_module_usage. exec. split; [reflexivity|].
  eexists. eexists. split; reflexivity.
Qed.

(** X20: whether the parser accepts a command line does not depend on
    the module.  In particular the analyse module is accepted with a
    single positional argument; the definitions file and the
    characteristics file are the entries at [optind] and [optind + 1] of
    the vector as [getopt_long] left it, and the characteristics file is
    NULL when the definitions file is the last entry. *)
Theorem getopt_module_irrelevant (argv : list string) (scan : getopt_scan)
    (action : oscap_action) (m : oscap_module) :
  let out := run (getopt_oval argv scan action) in
  let out' := run (getopt_oval argv scan (set_module action m)) in
  parsed_ok (fst out') = parsed_ok (fst out) /\
  (parsed_ok (fst out') = true -> m = OVAL_ANALYSE ->
   url_oval (parsed_action (fst out')) = argv_at (getopt_argv scan) (optind scan) /\
   url_syschar (parsed_action (fst out')) = argv_at (getopt_argv scan) (optind scan + 1) /\
   (List.length (getopt_argv scan) = List.length argv ->
    optind scan + 1 = argc argv ->
    url_syschar (parsed_action (fst out')) = None)).
Proof.
  cbv zeta.
  assert (Hrun : forall a,
    run (getopt_oval argv scan a) =
    match getopt_loop (getopt_returns scan)
            (set_doctype a OSCAP_DOCUMENT_OVAL_DEFINITIONS) initial with
    | (inl a1, s1) =>
        if optind scan >=? argc argv
        then ({| parsed_ok := false; parsed_action := a1;
                 parsed_VERBOSE := verbosity a1 |},
              trace s1 ++ [ModuleUsage (module a1)
                             (Some "Definitions file needs to be specified!"%string)])
        else
          let a2 := set_url_oval a1 (argv_at (getopt_argv scan) (optind scan)) in
          ({| parsed_ok := true;
              parsed_action :=
                if oscap_module_eqb (module a1) OVAL_ANALYSE
                then set_url_syschar a2 (argv_at (getopt_argv scan) (optind scan + 1))
                else a2;
              parsed_VERBOSE := verbosity a1 |}, trace s1)
    | (inr p, s1) => (p, trace s1)
    end).
  { intros a. unfold run, getopt_oval, bind at 1.
    destruct (getopt_loop _ _ initial) as [[a1|p] s1]; [|reflexivity].
    unfold oscap_module_usage. exec.
    destruct (Z.geb_spec (optind scan) (argc argv)) as [|Hlt]; simpl; [reflexivity|].
    destruct (oscap_module_eqb (module a1) OVAL_ANALYSE); simpl; [|reflexivity].
    destruct (Z.gtb_spec (optind scan + 1) (argc argv)) as [|_]; [lia|reflexivity]. }
  rewrite !Hrun.
  pose proof (getopt_loop_module (getopt_returns scan) m
                (set_doctype action OSCAP_DOCUMENT_OVAL_DEFINITIONS) initial) as Hloop.
  change (set_doctype (set_module action m) OSCAP_DOCUMENT_OVAL_DEFINITIONS)
    with (set_module (set_doctype action OSCAP_DOCUMENT_OVAL_DEFINITIONS) m).
  destruct (getopt_loop (getopt_returns scan)
              (set_doctype action OSCAP_DOCUMENT_OVAL_DEFINITIONS) initial)
    as [[a1|p] s1].
  - rewrite Hloop.
    destruct (optind scan >=? argc argv); simpl.
    + split; [reflexivity|discriminate].
    + split; [reflexivity|]. intros _ ->. simpl.
      split; [reflexivity|split; [reflexivity|]].
      intros Hlen Hlast. unfold argv_at.
      destruct (optind scan + 1 <? 0); [reflexivity|].
      apply nth_error_None. unfold argc in Hlast. lia.
  - destruct Hloop as (Hp & p' & s' & -> & Hp'). simpl.
    rewrite Hp, Hp'. split; [reflexivity|discriminate].
Qed.

(** [analyse defs.xml sc.xml --result-file r.xml]: both files are read
    behind the option the scan moved in front of them. *)
Example getopt_analyse_option_last :
  let out := run (getopt_oval analyse_option_last analyse_option_last_scan
                    (analyse_action None)) in
  parsed_ok (fst out) = true /\
  url_oval (parsed_action (fst out)) = Some "defs.xml"%string /\
  url_syschar (parsed_action (fst out)) = Some "sc.xml"%string /\
  f_results (parsed_action (fst out)) = Some "r.xml"%string.
Proof.
  cbv zeta. repeat split.
Qed.

(** X21: no entry of [long_options] is named or abbreviated by
    file-version, the option the help of validate-xml documents; the
    entry that selects OVAL_OPT_FILE_VERSION is named version. *)
Theorem file_version_is_not_an_option :
  (exists help, module_help OVAL_VALIDATE = Some help /\
                index 0 "--file-version" help <> None) /\
  Forall (fun o => prefix "file-version" (lo_name o) = false) long_options /\
  (forall o, In o long_options ->
     lo_effect o = Returns OVAL_OPT_FILE_VERSION -> lo_name o = "version"%string).
Proof.
  split; [|split].
  - eexists. split; [reflexivity|]. vm_compute. discriminate.
  - repeat constructor.
  - intros o Hin Heff. unfold long_options in Hin. simpl in Hin.
    repeat (destruct Hin as [<-|Hin]; [try discriminate Heff; try reflexivity|]).
    destruct Hin.
Qed.

(** ** The report handler *)

(** X22: the assertion of [app_oval_xslt] holds for every module
    registered with it and fails for every other one; where it holds,
    the handler returns what [app_xslt] returns for the definitions
    file, the stylesheet oval-results-report.xsl (the one the evaluate
    workflow renders its report with) and the results file. *)
Theorem report_handler_runs (app_xslt : string -> string -> option string -> Z)
    (action : oscap_action) :
  (module_func (module action) = Some handler_oval_xslt ->
   app_oval_xslt app_xslt action =
   Some (app_xslt (f_oval action) "oval-results-report.xsl"%string (f_results action))) /\
  (module_func (module action) <> Some handler_oval_xslt ->
   app_oval_xslt app_xslt action = None) /\
  (forall infile outfile s,
     snd (oval_gen_report (R:=oscap_exitcode) infile outfile s) =
     {| pending := pending s;
        trace := trace s ++ [Xslt infile "oval-results-report.xsl" outfile] |}).
Proof.
  unfold app_oval_xslt.
  destruct (module action); simpl; repeat split; intros; try congruence; try discriminate.
Qed.
